(** * Navari M-Pesa B2C connector: model and verified properties

    A shallow embedding of

    - [mpesa_b2c/scripts/server/base_classes.py]  (notifier / observers),
    - [mpesa_b2c/scripts/server/mpesa_connector.py]  (connector, callback),
    - [mpesa_b2c/utils/helpers.py]  (token and request-log persistence).

    Python objects that are mutated in place (the connector, the document
    store, the error log) are threaded explicitly through a state monad
    whose state survives a raised exception, as a Python object's
    attributes do.  Everything outside the repository (the clock, the HTTP
    client, the document store's acceptance of a save) is an explicit
    oracle, gathered in the record [Externals]. *)

From stdpp Require Import base option list strings gmap.
From Stdlib Require Import ZArith Lia.

Local Open Scope string_scope.
Local Open Scope Z_scope.

(** ** Exceptions and results *)

(** The exception classes that the modelled code raises or lets through. *)
Inductive Exn : Type :=
| ValidationError (msg : string)        (* frappe.throw(msg) *)
| DataError (msg : string)              (* frappe.throw(msg, frappe.DataError) *)
| DoesNotExistError (name : option string)  (* frappe.get_doc on a missing record *)
| DuplicateEntryError (name : string)   (* insert under a name already in use *)
| PasswordNotFoundError (name : nat)    (* get_decrypted_password without a stored secret *)
| HTTPError (msg : string)              (* requests.HTTPError *)
| ConnectionError (msg : string)        (* requests.ConnectionError *)
| RequestException (msg : string)       (* any other requests failure, e.g. ReadTimeout *)
| JSONDecodeError
| KeyError (key : string)
| ValueError (msg : string)
| OverflowError
| UnboundLocalError (var : string).

(** [str(e)] for an exception instance.  For the exceptions of the
    framework and of the libraries other than those that carry their
    message, the text is a fixed stand-in; the connector only ever
    stringifies the exceptions it catches, which carry theirs. *)
Definition exn_str (e : Exn) : string :=
  match e with
  | ValidationError m | DataError m | HTTPError m | ConnectionError m
  | RequestException m | ValueError m => m
  | DoesNotExistError None => "Integration Request None not found"
  | DoesNotExistError (Some n) => "Integration Request " +:+ n +:+ " not found"
  | DuplicateEntryError n => "Integration Request " +:+ n +:+ " already exists"
  | PasswordNotFoundError _ => "Password not found"
  | JSONDecodeError => "Expecting value"
  | KeyError k => "'" +:+ k +:+ "'"
  | OverflowError => "date value out of range"
  | UnboundLocalError v =>
      "cannot access local variable '" +:+ v +:+ "' where it is not associated with a value"
  end.

(** Outcome of a Python call: a returned value or a raised exception. *)
Inductive Res (A : Type) : Type :=
| Ok (a : A)
| Raise (e : Exn).
Arguments Ok {A} a.
Arguments Raise {A} e.

(** State monad with exceptions.  The state is returned in both cases:
    mutations made before a [raise] stay visible to the caller. *)
Definition M (S A : Type) : Type := S -> Res A * S.

Definition ret {S A} (a : A) : M S A := fun s => (Ok a, s).

Definition bind {S A B} (m : M S A) (k : A -> M S B) : M S B :=
  fun s => match m s with
           | (Ok a, s') => k a s'
           | (Raise e, s') => (Raise e, s')
           end.

Definition raise {S A} (e : Exn) : M S A := fun s => (Raise e, s).

Definition modify {S} (f : S -> S) : M S unit := fun s => (Ok tt, f s).

(** [try: m except handles as e: h e]; exceptions not selected by
    [handles] propagate. *)
Definition try_except {S A} (m : M S A) (handles : Exn -> bool)
    (h : Exn -> M S A) : M S A :=
  fun s => match m s with
           | (Ok a, s') => (Ok a, s')
           | (Raise e, s') => if handles e then h e s' else (Raise e, s')
           end.

(** Run [m] and hand its outcome to the continuation as a value. *)
Definition attempt {S A} (m : M S A) : M S (Res A) :=
  fun s => let '(r, s') := m s in (Ok r, s').

Declare Scope py_scope.
Delimit Scope py_scope with py.
Notation "x <- m ;; k" := (bind m (fun x => k))
  (at level 100, m at next level, right associativity) : py_scope.
Notation "m ;;; k" := (bind m (fun _ => k))
  (at level 100, right associativity) : py_scope.
Local Open Scope py_scope.

(** ** Data model *)

(** Naive [datetime] values: microseconds since 0001-01-01T00:00:00. *)
Definition datetime := Z.

(** [datetime.max], 9999-12-31T23:59:59.999999. *)
Definition datetime_max : Z := 3652059 * 86400 * 1000000 - 1.

(** [t + timedelta(seconds=n)].  Python raises [OverflowError] when the
    delta or the sum leaves the representable range; for [t] in range the
    delta's own bound (10^9 days) is implied by the sum's. *)
Definition datetime_add_seconds {S} (t : datetime) (n : Z) : M S datetime :=
  let r := t + n * 1000000 in
  if (0 <=? r) && (r <=? datetime_max) then ret r else raise OverflowError.

(** Status of an Integration Request.  The repository writes ["Completed"]
    and ["Failed"] (the [Literal] of [update_integration_request]); a record
    that has just been created is [Pending] (specification, section 3). *)
Inductive Status : Type := Pending | Completed | Failed.

(** The [Result] object delivered to the callback endpoint, with the three
    fields the handler reads typed as the provider sends them. *)
Record ResultEnvelope : Type := {
  ResultCode : Z;
  ResultDesc : string;
  Result_OriginatorConversationID : string;
  Result_additional : list (string * string);
}.

(** Values passed as [output] to [update_integration_request]: annotated
    [str], but the callback passes the whole result dict. *)
Inductive Output : Type :=
| OutputText (s : string)
| OutputResult (r : ResultEnvelope).

(** An "Integration Request" document. *)
Record IntegrationRequest : Type := {
  ir_url : string;
  ir_data : string;
  ir_request_headers : list (string * string);
  ir_status : Status;
  ir_output : option Output;
  ir_error : option string;
}.

(** A "Daraja Access Tokens" document. *)
Record AccessTokenDoc : Type := {
  tok_name : nat;
  associated_settings : string;
  access_token : string;
  expiry_time : datetime;
  token_fetch_time : datetime;
}.

(** An entry written by [frappe.log_error]. *)
Record LogEntry : Type := {
  log_title : string;
  log_message : string;
}.

(** Calls made through the HTTP client, in order. *)
Inductive HttpCall : Type :=
| HttpGet (url : string) (username password : option string)
| HttpPost (url : string) (data : string) (headers : list (string * string)).

(** Everything persistent or observable outside the connector object. *)
Record World : Type := {
  clock_reads : nat;                              (* datetime.now() calls so far *)
  tokens : list AccessTokenDoc;                   (* newest first *)
  requests : gmap string IntegrationRequest;      (* keyed by document name *)
  error_log : list LogEntry;                      (* oldest first *)
  http_trace : list HttpCall;                     (* oldest first *)
}.

(** Modelled from the spec: [B2CRequestDefinition] is declared in
    [utils/definitions.py], which is not among the sources.  Section 3
    describes it as an immutable value object (amount, recipient, originator
    conversation id, credentials, provider setting reference).  The named
    fields are the attributes the connector reads; its serialisation
    [to_json] is an oracle of [Externals]. *)
Record B2CRequestDefinition : Type := {
  Setting : string;
  ConsumerKey : string;
  ConsumerSecret : string;
  OriginatorConversationID : string;
  disbursement_fields : list (string * string);
}.

(** Decoded body of the token endpoint's response, as far as [authenticate]
    inspects it.  [None] is a missing key; for [expires_in], [Some None] is a
    value that [int()] rejects. *)
Record TokenJson : Type := {
  json_access_token : option string;
  json_expires_in : option (option Z);
}.

(** A [requests.Response], as far as the connector inspects it. *)
Record Response (J : Type) : Type := {
  status_code : Z;
  http_error_msg : string;         (* text of the HTTPError built by raise_for_status *)
  json : option J;                 (* None: the body is not JSON *)
}.
Arguments status_code {J} r.
Arguments http_error_msg {J} r.
Arguments json {J} r.

(** Decoded JSON body of the payment endpoint's acknowledgment. *)
Definition JsonObject : Type := list (string * string).

(** The value held by [ConnectorBaseClass.error]: [str | Exception | None]. *)
Inductive ErrorValue : Type :=
| ErrText (s : string)
| ErrException (e : Exn).

(** [str(notifier.error)]. *)
Definition py_str (v : option ErrorValue) : string :=
  match v with
  | None => "None"
  | Some (ErrText s) => s
  | Some (ErrException e) => exn_str e
  end.

(** Truth value of [notifier.error] in [if notifier.error:]. *)
Definition truthy (v : option ErrorValue) : bool :=
  match v with
  | None => false
  | Some (ErrText s) => negb (String.eqb s "")
  | Some (ErrException _) => true
  end.

(** What an observer reads from the notifier. *)
Record Notifier : Type := {
  notifier_error : option ErrorValue;
  notifier_integration_request : option string;
}.

(** Observers.  [ErrorObserver] is the repository's only concrete class;
    [CustomObserver] stands for any other subclass of [Observer], given by
    what its [update] does to the world and whether it raises. *)
Inductive Observer : Type :=
| ErrorObserver
| CustomObserver (update : Notifier -> M World unit).

Definition is_ErrorObserver (o : Observer) : bool :=
  match o with ErrorObserver => true | CustomObserver _ => false end.

(** Attributes of an [MpesaB2CConnector] instance. *)
Record Connector : Type := {
  error : option ErrorValue;
  integration_request : option string;
  _observers : list Observer;
  authentication_token : option string;
  expires_in : option datetime;
  env : string;
  app_key : option string;
  app_secret : option string;
  base_url : string;
}.

(** Oracles for what lies outside the repository: the clock, the HTTP
    client, the site configuration, the store's verdict on a new document,
    and the serialisation of the request object. *)
Record Externals : Type := {
  (* the k-th value returned by datetime.now() *)
  now_reading : nat -> datetime;
  (* requests.get(url, auth=HTTPBasicAuth(user, password)) *)
  requests_get : string -> option string -> option string -> Res (Response TokenJson);
  (* requests.post(url, data=data, headers=headers) *)
  requests_post : string -> string -> list (string * string) -> Res (Response JsonObject);
  (* urlparse(get_request_site_address(full_address=True)).hostname *)
  site_hostname : option string;
  (* B2CRequestDefinition.to_json(extra) *)
  to_json : B2CRequestDefinition -> list (string * string) -> string;
  (* whether doc.save(ignore_permissions=True) goes through for a new token document *)
  token_doc_saved : AccessTokenDoc -> bool;
  (* whether doc.submit() goes through for it once it is saved *)
  token_doc_submitted : AccessTokenDoc -> bool;
}.

(** Both [doc.save()] and [doc.submit()] go through for the document. *)
Definition token_doc_accepted (X : Externals) (doc : AccessTokenDoc) : bool :=
  token_doc_saved X doc && token_doc_submitted X doc.

(** ** Field updates *)

Definition set_clock_reads (n : nat) (w : World) : World :=
  {| clock_reads := n; tokens := tokens w; requests := requests w;
     error_log := error_log w; http_trace := http_trace w |}.

Definition set_tokens (l : list AccessTokenDoc) (w : World) : World :=
  {| clock_reads := clock_reads w; tokens := l; requests := requests w;
     error_log := error_log w; http_trace := http_trace w |}.

Definition set_requests (m : gmap string IntegrationRequest) (w : World) : World :=
  {| clock_reads := clock_reads w; tokens := tokens w; requests := m;
     error_log := error_log w; http_trace := http_trace w |}.

Definition set_error_log (l : list LogEntry) (w : World) : World :=
  {| clock_reads := clock_reads w; tokens := tokens w; requests := requests w;
     error_log := l; http_trace := http_trace w |}.

Definition set_http_trace (l : list HttpCall) (w : World) : World :=
  {| clock_reads := clock_reads w; tokens := tokens w; requests := requests w;
     error_log := error_log w; http_trace := l |}.

Definition set_error (v : option ErrorValue) (c : Connector) : Connector :=
  {| error := v; integration_request := integration_request c;
     _observers := _observers c; authentication_token := authentication_token c;
     expires_in := expires_in c; env := env c; app_key := app_key c;
     app_secret := app_secret c; base_url := base_url c |}.

Definition set_integration_request (v : option string) (c : Connector) : Connector :=
  {| error := error c; integration_request := v;
     _observers := _observers c; authentication_token := authentication_token c;
     expires_in := expires_in c; env := env c; app_key := app_key c;
     app_secret := app_secret c; base_url := base_url c |}.

Definition set_observers (l : list Observer) (c : Connector) : Connector :=
  {| error := error c; integration_request := integration_request c;
     _observers := l; authentication_token := authentication_token c;
     expires_in := expires_in c; env := env c; app_key := app_key c;
     app_secret := app_secret c; base_url := base_url c |}.

Definition set_authentication_token (v : option string) (c : Connector) : Connector :=
  {| error := error c; integration_request := integration_request c;
     _observers := _observers c; authentication_token := v;
     expires_in := expires_in c; env := env c; app_key := app_key c;
     app_secret := app_secret c; base_url := base_url c |}.

Definition set_expires_in (v : option datetime) (c : Connector) : Connector :=
  {| error := error c; integration_request := integration_request c;
     _observers := _observers c; authentication_token := authentication_token c;
     expires_in := v; env := env c; app_key := app_key c;
     app_secret := app_secret c; base_url := base_url c |}.

Definition set_credentials (k s : option string) (c : Connector) : Connector :=
  {| error := error c; integration_request := integration_request c;
     _observers := _observers c; authentication_token := authentication_token c;
     expires_in := expires_in c; env := env c; app_key := k;
     app_secret := s; base_url := base_url c |}.

(** A connector method runs on the connector and the world together. *)
Definition State : Type := Connector * World.

(** Run a world-only action inside a connector method. *)
Definition in_world {A} (m : M World A) : M State A :=
  fun '(c, w) => let '(r, w') := m w in (r, (c, w')).

(** Read the connector ([self]). *)
Definition self : M State Connector := fun '(c, w) => (Ok c, (c, w)).

(** Assign to attributes of [self]. *)
Definition self_update (f : Connector -> Connector) : M State unit :=
  fun '(c, w) => (Ok tt, (f c, w)).

(** Python's [d[key]] on a decoded field: [KeyError] when absent. *)
Definition subscript {S A} (key : string) (field : option A) : M S A :=
  match field with
  | Some v => ret v
  | None => raise (KeyError key)
  end.

(** Formatting of an optional string inside an f-string. *)
Definition fmt (o : option string) : string := default "None" o.

(** ** The program *)

Section Program.

Context (X : Externals).

(** *** Framework and library calls *)

(** [datetime.now()]: the next reading of the clock. *)
Definition datetime_now : M World datetime :=
  fun w => (Ok (now_reading X (clock_reads w)), set_clock_reads (S (clock_reads w)) w).

(** [frappe.throw(msg, exc)]: raises [exc(msg)]. *)
Definition frappe_throw {S A} (exc : string -> Exn) (msg : string) : M S A :=
  raise (exc msg).

(** [frappe.log_error(title=..., message=...)]: one more Error Log entry. *)
Definition frappe_log_error (title : string) (message : option ErrorValue) : M World unit :=
  modify (fun w =>
    set_error_log (error_log w ++ [{| log_title := title; log_message := py_str message |}]) w).

(** [frappe.get_doc("Integration Request", name, for_update=True)]: the
    loaded document, which knows its name. *)
Definition frappe_get_doc (name : option string) : M World (string * IntegrationRequest) :=
  fun w => match name with
           | Some n => match requests w !! n with
                       | Some doc => (Ok (n, doc), w)
                       | None => (Raise (DoesNotExistError name), w)
                       end
           | None => (Raise (DoesNotExistError None), w)
           end.

(** [doc.save(ignore_permissions=True)] on a loaded Integration Request. *)
Definition doc_save (doc : string * IntegrationRequest) : M World unit :=
  modify (fun w => set_requests (<[doc.1 := doc.2]> (requests w)) w).

(** [doc.save(ignore_permissions=True)] on a new token document: the store
    takes the document, or the call raises and nothing is stored. *)
Definition token_doc_save (doc : AccessTokenDoc) : M World unit :=
  fun w => if token_doc_saved X doc
           then (Ok tt, set_tokens (doc :: tokens w) w)
           else (Raise (ValidationError "Document could not be saved"), w).

(** [doc.submit()] on the saved document: it returns or raises.  What it
    changes in the stored document is its [docstatus], which the
    repository never reads and the model does not carry; the document
    that [save] stored stays in the store either way. *)
Definition token_doc_submit (doc : AccessTokenDoc) : M World unit :=
  fun w => if token_doc_submitted X doc
           then (Ok tt, w)
           else (Raise (ValidationError "Document could not be submitted"), w).

(** [frappe.db.get_value(DARAJA_ACCESS_TOKENS_DOCTYPE,
      {"associated_settings": s, "expiry_time": [">", now]}, ...)]:
    the first matching document, [None] when there is none. *)
Definition token_matches (s : string) (now : datetime) (d : AccessTokenDoc) : bool :=
  bool_decide (associated_settings d = s) && (now <? expiry_time d).

Definition frappe_db_get_value (s : string) (now : datetime) : M World (option AccessTokenDoc) :=
  fun w => (Ok (find (token_matches s now) (tokens w)), w).

(** [get_decrypted_password(DARAJA_ACCESS_TOKENS_DOCTYPE, name, "access_token")]:
    the secret stored for the document of that name. *)
Definition get_decrypted_password (name : nat) : M World string :=
  fun w => match find (fun d => bool_decide (tok_name d = name)) (tokens w) with
           | Some d => (Ok (access_token d), w)
           | None => (Raise (PasswordNotFoundError name), w)
           end.

(** Modelled from the spec: [create_request_log] is the framework's
    ([frappe.integrations.utils]), not the repository's.  Section 4.1, step
    5: it creates an Integration Request keyed by the given name, status
    implicitly Pending, storing URL, payload and headers; the call site
    passes [error=None] and no output.  A name already in use is refused,
    names being unique keys of the store.  The value returned stands for the
    document, of which the caller reads [.name]. *)
Definition create_request_log (url data name : string)
    (request_headers : list (string * string)) : M World string :=
  fun w => match requests w !! name with
           | Some _ => (Raise (DuplicateEntryError name), w)
           | None =>
               let doc := {| ir_url := url; ir_data := data;
                             ir_request_headers := request_headers;
                             ir_status := Pending; ir_output := None;
                             ir_error := None |} in
               (Ok name, set_requests (<[name := doc]> (requests w)) w)
           end.

(** [requests.get(url, auth=HTTPBasicAuth(key, secret), timeout=120)]. *)
Definition http_get (url : string) (key secret : option string)
  : M World (Response TokenJson) :=
  fun w => (requests_get X url key secret,
            set_http_trace (http_trace w ++ [HttpGet url key secret]) w).

(** [requests.post(url, data=..., headers=..., timeout=60)]. *)
Definition http_post (url data : string) (headers : list (string * string))
  : M World (Response JsonObject) :=
  fun w => (requests_post X url data headers,
            set_http_trace (http_trace w ++ [HttpPost url data headers]) w).

(** [response.raise_for_status()]. *)
Definition raise_for_status {S J} (r : Response J) : M S unit :=
  if (400 <=? status_code r) && (status_code r <? 600)
  then raise (HTTPError (http_error_msg r))
  else ret tt.

(** [response.json()]. *)
Definition response_json {S J} (r : Response J) : M S J :=
  match json r with
  | Some j => ret j
  | None => raise JSONDecodeError
  end.

(** [int(v)] on a decoded value.  A rejected value stands for a string
    that [int()] cannot read, for which Python raises [ValueError]; the
    text is shortened. *)
Definition py_int {S} (v : option Z) : M S Z :=
  match v with
  | Some n => ret n
  | None => raise (ValueError "invalid literal for int()")
  end.

(** *** utils/helpers.py *)

(** [frappe.new_doc(doctype)]: the name the new document will be stored
    under, unused so far. *)
Definition fresh_token_name (l : list AccessTokenDoc) : nat :=
  S (max_list (tok_name <$> l)).

Definition frappe_new_doc : M World nat :=
  fun w => (Ok (fresh_token_name (tokens w)), w).

Definition save_access_token (token : string) (expiry_time fetch_time : datetime)
    (associated_setting : string) : M World bool :=
  doc_name <- frappe_new_doc ;;
  let doc := {| tok_name := doc_name;
                associated_settings := associated_setting;
                access_token := token;
                expiry_time := expiry_time;
                token_fetch_time := fetch_time |} in
  try_except
    (token_doc_save doc ;;; token_doc_submit doc ;;; ret true)
    (fun _ => true)
    (fun _ => frappe_throw ValidationError "Error Encountered").

Definition update_integration_request (integration_request : option string)
    (status : Status) (output : option Output) (error : option string) : M World unit :=
  doc <- frappe_get_doc integration_request ;;
  let doc := (doc.1, {| ir_url := ir_url doc.2; ir_data := ir_data doc.2;
                        ir_request_headers := ir_request_headers doc.2;
                        ir_status := status;
                        ir_error := error;
                        ir_output := output |}) in
  doc_save doc.

(** *** scripts/server/base_classes.py *)

(** [ConnectorBaseClass.__init__]: no error, no request, no observers.  The
    attributes that only [MpesaB2CConnector.__init__] defines hold
    placeholders until it assigns them. *)
Definition ConnectorBaseClass_init : Connector :=
  {| error := None; integration_request := None; _observers := [];
     authentication_token := None; expires_in := None; env := "";
     app_key := None; app_secret := None; base_url := "" |}.

Definition attach (observer : Observer) : M State unit :=
  self_update (fun c => set_observers (_observers c ++ [observer]) c).

Definition ErrorObserver_update (notifier : Notifier) : M World unit :=
  if truthy (notifier_error notifier) then
    frappe_log_error "HTTPError" (notifier_error notifier) ;;;
    update_integration_request (notifier_integration_request notifier)
      Failed None (Some (py_str (notifier_error notifier))) ;;;
    frappe_throw DataError (py_str (notifier_error notifier))
  else ret tt.

(** [observer.update(notifier)], dispatched on the observer's class. *)
Definition update (observer : Observer) (notifier : Notifier) : M World unit :=
  match observer with
  | ErrorObserver => ErrorObserver_update notifier
  | CustomObserver u => u notifier
  end.

Definition as_notifier (c : Connector) : Notifier :=
  {| notifier_error := error c;
     notifier_integration_request := integration_request c |}.

(** The body of [notify]: [for observer in observers: observer.update(self)]. *)
Fixpoint notify_each (observers : list Observer) (notifier : Notifier) : M World unit :=
  match observers with
  | [] => ret tt
  | observer :: rest => update observer notifier ;;; notify_each rest notifier
  end.

Definition notify : M State unit :=
  c <- self ;;
  in_world (notify_each (_observers c) (as_notifier c)).

(** *** scripts/server/mpesa_connector.py *)

Definition URLS_SANDBOX : string := "https://sandbox.safaricom.co.ke".
Definition URLS_PRODUCTION : string := "https://api.safaricom.co.ke".

(** [MpesaB2CConnector.__init__(env, app_key, app_secret)]. *)
Definition MpesaB2CConnector (env : string) (app_key app_secret : option string)
  : Connector :=
  let c := ConnectorBaseClass_init in
  let c := {| error := error c; integration_request := integration_request c;
              _observers := _observers c;
              authentication_token := None; expires_in := None;
              env := env; app_key := app_key; app_secret := app_secret;
              base_url := if bool_decide (env = "sandbox")
                          then URLS_SANDBOX else URLS_PRODUCTION |} in
  set_observers (_observers c ++ [ErrorObserver]) c.

(** The dict returned by [authenticate]. *)
Record AuthResult : Type := {
  res_access_token : string;
  res_expires_in : datetime;
  res_fetched_time : datetime;
}.

Definition authenticate_uri : string :=
  "/oauth/v1/generate?grant_type=client_credentials".

Definition authenticate (setting : string) : M State AuthResult :=
  c <- self ;;
  let authenticate_url := base_url c +:+ authenticate_uri in
  r <- in_world (http_get authenticate_url (app_key c) (app_secret c)) ;;
  if status_code r <? 400 then
    response <- response_json r ;;
    token <- subscript "access_token" (json_access_token response) ;;
    self_update (set_authentication_token (Some token)) ;;;
    now <- in_world datetime_now ;;
    seconds <- subscript "expires_in" (json_expires_in response) ;;
    seconds <- py_int seconds ;;
    expiry <- datetime_add_seconds now seconds ;;
    self_update (set_expires_in (Some expiry)) ;;;
    fetch_time <- in_world datetime_now ;;
    in_world (save_access_token token expiry fetch_time setting) ;;;
    ret {| res_access_token := token;
           res_expires_in := expiry;
           res_fetched_time := fetch_time |}
  else
    frappe_throw ValidationError
      ("Can't get token with provided Credentials for setting: <b>"
         +:+ setting +:+ "</b>").

Definition callback_path : string :=
  "/api/method/navari_mpesa_b2c.mpesa_b2c.scripts.server.mpesa_connector.results_callback_url".

(** The exceptions named by [except (requests.HTTPError, requests.ConnectionError)]. *)
Definition is_http_or_connection_error (e : Exn) : bool :=
  match e with
  | HTTPError _ | ConnectionError _ => true
  | _ => false
  end.

(** Lines 114-138 of [make_b2c_payment_request]: look up a token that is
    still valid, authenticate when there is none, and leave the bearer
    token in [self.authentication_token]. *)
Definition lookup_or_authenticate (request_data : B2CRequestDefinition)
  : M State unit :=
  now <- in_world datetime_now ;;
  token <- in_world (frappe_db_get_value (Setting request_data) now) ;;
  match token with
  | None =>
      self_update (set_credentials (Some (ConsumerKey request_data))
                                   (Some (ConsumerSecret request_data))) ;;;
      res <- authenticate (Setting request_data) ;;
      self_update (set_authentication_token (Some (res_access_token res)))
  | Some token =>
      secret <- in_world (get_decrypted_password (tok_name token)) ;;
      self_update (set_authentication_token (Some secret))
  end.

Definition saf_url_of (c : Connector) : string :=
  base_url c +:+ "/mpesa/b2c/v3/paymentrequest".

Definition callback_url : string :=
  "https://" +:+ fmt (site_hostname X) +:+ callback_path.

Definition payload_of (request_data : B2CRequestDefinition) : string :=
  to_json X request_data
    [("QueueTimeOutURL", callback_url); ("ResultURL", callback_url)].

Definition headers_of (c : Connector) : list (string * string) :=
  [("Authorization", "Bearer " +:+ fmt (authentication_token c));
   ("Content-Type", "application/json")].

(** Lines 140-162: build URL, payload and headers, create the Integration
    Request and keep its name in [self.integration_request].  The three
    locals are handed on to the submission. *)
Definition create_integration_request (request_data : B2CRequestDefinition)
  : M State (string * string * list (string * string)) :=
  c <- self ;;
  let saf_url := saf_url_of c in
  let payload := payload_of request_data in
  let headers := headers_of c in
  name <- in_world (create_request_log saf_url payload
                      (OriginatorConversationID request_data) headers) ;;
  self_update (set_integration_request (Some name)) ;;;
  ret (saf_url, payload, headers).

(** Lines 164-178: the [try] block around [requests.post], its handler,
    and the final [return response.json()].  The local [response] is bound
    only once [requests.post] has returned. *)
Definition submit (saf_url payload : string) (headers : list (string * string))
  : M State JsonObject :=
  let on_error (e : Exn) : M State unit :=
    self_update (set_error (Some (ErrException e))) ;;; notify in
  posted <- attempt (in_world (http_post saf_url payload headers)) ;;
  response <-
    match posted with
    | Ok response =>
        try_except (raise_for_status response) is_http_or_connection_error on_error ;;;
        ret (Some response)
    | Raise e =>
        if is_http_or_connection_error e then on_error e ;;; ret None else raise e
    end ;;
  match response with
  | Some response => response_json response
  | None => raise (UnboundLocalError "response")
  end.

Definition make_b2c_payment_request (request_data : B2CRequestDefinition)
  : M State JsonObject :=
  lookup_or_authenticate request_data ;;;
  locals <- create_integration_request request_data ;;
  let '(saf_url, payload, headers) := locals in
  submit saf_url payload headers.

(** [results_callback_url(kwargs)]; the argument is [kwargs.get("Result")]. *)
Definition results_callback_url (kwargs_Result : option ResultEnvelope) : M World unit :=
  result <- subscript "Result" kwargs_Result ;;
  if negb (ResultCode result =? 0) then
    update_integration_request (Some (Result_OriginatorConversationID result))
      Failed (Some (OutputResult result)) (Some (ResultDesc result))
  else ret tt.

End Program.

(** ** scripts/setup/uninstall.py *)

Module Uninstall.

(** What [delete_custom_fields] can raise. *)
Inductive Exc : Type :=
| IndexError                        (* fixtures[0] on an empty list *)
| MissingKey (key : string)         (* KeyError on a fixture dict *)
| DatabaseError (msg : string).     (* whatever frappe.db.delete raises *)

(** The first argument of [click.secho]: a string, or the tuple of strings
    that the failure branch passes. *)
Inductive Message : Type :=
| Text (s : string)
| Tuple (parts : list string).

(** One call to [click.secho(message, fg=...)]. *)
Record Echo : Type := {
  echo_message : Message;
  echo_fg : string;
}.

(** Filters of a fixture, in the framework's list form:
    field, operator, values. *)
Definition Filters : Type := list (string * string * list string).

(** An entry of [hooks.fixtures] as [delete_custom_fields] reads it: a dict
    in which either key may be absent. *)
Record Fixture : Type := {
  fixture_doctype : option string;
  fixture_filters : option Filters;
}.

(** The documents of the site, as (doctype, name), and the console. *)
Record Site : Type := {
  documents : list (string * string);
  console : list Echo;
}.

Section Program.

(** [hooks.fixtures] and [hooks.app_email]: [hooks.py] is not among the
    sources, so both are parameters. *)
Context (fixtures : list Fixture) (app_email : string).

(** The database: which documents a filter selects, and whether a delete
    goes through. *)
Context (selects : Filters -> string -> bool)
        (delete_error : string -> Filters -> option Exc).

Definition click_secho (message : Message) (fg : string) (s : Site) : Site :=
  {| documents := documents s;
     console := console s ++ [{| echo_message := message; echo_fg := fg |}] |}.

(** [frappe.db.delete(doctype=..., filters=...)]. *)
Definition frappe_db_delete (doctype : string) (filters : Filters) (s : Site)
  : option Exc * Site :=
  match delete_error doctype filters with
  | Some e => (Some e, s)
  | None =>
      (None,
       {| documents :=
            List.filter
              (fun d => negb (String.eqb d.1 doctype && selects filters d.2))
              (documents s);
          console := console s |})
  end.

Definition failure_message : Message :=
  Tuple ["Removal of customisations failed due to an error.";
         "Please try again.";
         "If error persists, please report to following email: " +:+ app_email].

(** [delete_custom_fields()]; [Some e] is a raised exception. *)
Definition delete_custom_fields (s : Site) : option Exc * Site :=
  let s := click_secho (Text "Removing customisations") "green" s in
  let tried :=
    match fixtures with
    | [] => (Some IndexError, s)
    | fixture :: _ =>
        match fixture_doctype fixture with
        | None => (Some (MissingKey "doctype"), s)
        | Some doctype =>
            match fixture_filters fixture with
            | None => (Some (MissingKey "filters"), s)
            | Some filters => frappe_db_delete doctype filters s
            end
        end
    end in
  match tried with
  | (None, s') => (None, s')
  | (Some e, s') => (Some e, click_secho failure_message "bright_red" s')
  end.

End Program.

End Uninstall.

(** ** Notions used in the statements *)

(** The public operations of a connector, with their arguments. *)
Inductive Op : Type :=
| OpAttach (observer : Observer)
| OpNotify
| OpAuthenticate (setting : string)
| OpMakePayment (request_data : B2CRequestDefinition).

(** Run one public operation, forgetting the value it returns. *)
Definition run_op (X : Externals) (op : Op) : M State unit :=
  match op with
  | OpAttach o => attach o
  | OpNotify => notify
  | OpAuthenticate setting => authenticate X setting ;;; ret tt
  | OpMakePayment request_data => make_b2c_payment_request X request_data ;;; ret tt
  end.

(** States a connector can be in: freshly constructed, then driven through
    any public operations (returning or raising, under any behaviour of the
    outside world), with the stores changing arbitrarily in between. *)
Inductive reachable : State -> Prop :=
| reach_init env app_key app_secret w :
    reachable (MpesaB2CConnector env app_key app_secret, w)
| reach_op X op st :
    reachable st -> reachable (run_op X op st).2
| reach_world c w w' :
    reachable (c, w) -> reachable (c, w').

(** Calls to the token endpoint among a list of HTTP calls. *)
Definition is_get (call : HttpCall) : bool :=
  match call with HttpGet _ _ _ => true | HttpPost _ _ _ => false end.

Definition count_gets (calls : list HttpCall) : nat :=
  length (filter (fun call => is_get call = true) calls).

(** The document [update_integration_request] writes back. *)
Definition updated (doc : IntegrationRequest) (status : Status)
    (output : option Output) (error : option string) : IntegrationRequest :=
  {| ir_url := ir_url doc; ir_data := ir_data doc;
     ir_request_headers := ir_request_headers doc;
     ir_status := status; ir_output := output; ir_error := error |}.

(** The world after [ErrorObserver.update] has reported [err] against the
    request [name], whose document was [doc]. *)
Definition reported (err : option ErrorValue) (name : string)
    (doc : IntegrationRequest) (w : World) : World :=
  set_requests
    (<[name := updated doc Failed None (Some (py_str err))]> (requests w))
    (set_error_log
       (error_log w ++ [{| log_title := "HTTPError"; log_message := py_str err |}]) w).

(** The document that a successful [authenticate] stores. *)
Definition issued_token (X : Externals) (setting token : string) (seconds : Z)
    (w : World) : AccessTokenDoc :=
  {| tok_name := fresh_token_name (tokens w);
     associated_settings := setting;
     access_token := token;
     expiry_time := now_reading X (clock_reads w) + seconds * 1000000;
     token_fetch_time := now_reading X (S (clock_reads w)) |}.

(** The failure of the POST that the [except] clause of
    [make_b2c_payment_request] handles, if any: a [ConnectionError] or
    [HTTPError] raised by [requests.post], or the [HTTPError] that
    [raise_for_status] raises on a 4xx or 5xx response. *)
Definition post_failure (X : Externals) (url data : string)
    (headers : list (string * string)) : option Exn :=
  match requests_post X url data headers with
  | Ok r =>
      if (400 <=? status_code r) && (status_code r <? 600)
      then Some (HTTPError (http_error_msg r)) else None
  | Raise e => if is_http_or_connection_error e then Some e else None
  end.

(** The exception that ends the [try] block of
    [make_b2c_payment_request], if any: whatever [requests.post] raises, or
    the [HTTPError] that [raise_for_status] raises on a 4xx or 5xx
    response. *)
Definition try_failure (X : Externals) (url data : string)
    (headers : list (string * string)) : option Exn :=
  match requests_post X url data headers with
  | Ok r =>
      if (400 <=? status_code r) && (status_code r <? 600)
      then Some (HTTPError (http_error_msg r)) else None
  | Raise e => Some e
  end.


(** The Integration Request that [make_b2c_payment_request] creates. *)
Definition new_request (url data : string) (headers : list (string * string))
  : IntegrationRequest :=
  {| ir_url := url; ir_data := data; ir_request_headers := headers;
     ir_status := Pending; ir_output := None; ir_error := None |}.

(** The world once [call] has gone out. *)
Definition called (call : HttpCall) (w : World) : World :=
  set_http_trace (http_trace w ++ [call]) w.

(** ** Concrete scenarios

    The scenarios of the specification's section 8, used to run the model. *)

Module Scenario.

(** A clock that advances by one microsecond per reading. *)
Definition ticking (k : nat) : datetime := 1000000 + Z.of_nat k.

Definition token_response (status : Z) : Response TokenJson :=
  {| status_code := status; http_error_msg := "";
     json := Some {| json_access_token := Some "abc";
                     json_expires_in := Some (Some 3600) |} |}.

Definition ack : JsonObject := [("ConversationID", "X")].

Definition payment_response (status : Z) (msg : string) : Response JsonObject :=
  {| status_code := status; http_error_msg := msg; json := Some ack |}.

(** An outside world in which the token endpoint answers [auth_status] and
    the payment endpoint behaves as [post]. *)
Definition externals (auth_status : Z) (post : Res (Response JsonObject)) : Externals :=
  {| now_reading := ticking;
     requests_get := fun _ _ _ => Ok (token_response auth_status);
     requests_post := fun _ _ _ => post;
     site_hostname := Some "erp.example.com";
     to_json := fun r extra =>
       "{OriginatorConversationID: " +:+ OriginatorConversationID r +:+ "}";
     token_doc_saved := fun _ => true;
     token_doc_submitted := fun _ => true |}.

Definition all_ok : Externals := externals 200 (Ok (payment_response 200 "")).

Definition post_500 : Externals :=
  externals 200 (Ok (payment_response 500 "500 Server Error")).

Definition auth_401 : Externals := externals 401 (Ok (payment_response 200 "")).

Definition request : B2CRequestDefinition :=
  {| Setting := "Main"; ConsumerKey := "key"; ConsumerSecret := "secret";
     OriginatorConversationID := "X";
     disbursement_fields := [("Amount", "100")] |}.

Definition connector : Connector := MpesaB2CConnector "sandbox" None None.

Definition empty_world : World :=
  {| clock_reads := 0; tokens := []; requests := ∅; error_log := []; http_trace := [] |}.

Definition cached_token : AccessTokenDoc :=
  {| tok_name := 0; associated_settings := "Main"; access_token := "cached";
     expiry_time := 2000000; token_fetch_time := 500 |}.

Definition expired_token : AccessTokenDoc :=
  {| tok_name := 0; associated_settings := "Main"; access_token := "stale";
     expiry_time := 999; token_fetch_time := 500 |}.

Definition world_with_token (d : AccessTokenDoc) : World :=
  set_tokens [d] empty_world.

Definition pending_doc : IntegrationRequest :=
  {| ir_url := "https://sandbox.safaricom.co.ke/mpesa/b2c/v3/paymentrequest";
     ir_data := "{}"; ir_request_headers := [];
     ir_status := Pending; ir_output := None; ir_error := None |}.

(** A world in which request "X" has been submitted and acknowledged. *)
Definition world_with_request (doc : IntegrationRequest) : World :=
  set_requests {[ "X" := doc ]} empty_world.

Definition envelope (code : Z) (desc : string) : ResultEnvelope :=
  {| ResultCode := code; ResultDesc := desc;
     Result_OriginatorConversationID := "X"; Result_additional := [] |}.

(** An outside world given by the answers of the two endpoints and by
    whether the store lets a new token document be saved and submitted. *)
Definition outside_store (get : Res (Response TokenJson))
    (post : Res (Response JsonObject)) (saved submitted : bool) : Externals :=
  {| now_reading := ticking;
     requests_get := fun _ _ _ => get;
     requests_post := fun _ _ _ => post;
     site_hostname := Some "erp.example.com";
     to_json := fun r extra =>
       "{OriginatorConversationID: " +:+ OriginatorConversationID r +:+ "}";
     token_doc_saved := fun _ => saved;
     token_doc_submitted := fun _ => submitted |}.

(** The same, with a store that takes a new token document whole or not
    at all. *)
Definition outside (get : Res (Response TokenJson))
    (post : Res (Response JsonObject)) (accepted : bool) : Externals :=
  outside_store get post accepted accepted.

Definition token_body (token : option string) (seconds : option (option Z))
  : Response TokenJson :=
  {| status_code := 200; http_error_msg := "";
     json := Some {| json_access_token := token; json_expires_in := seconds |} |}.

(** An observer of another class, which writes an audit line on every
    notification. *)
Definition audit_observer : Observer :=
  CustomObserver (fun notifier => frappe_log_error "Audit" (notifier_error notifier)).

(** A connector that still holds the error of an earlier failure. *)
Definition failed_connector : Connector :=
  set_error (Some (ErrException (HTTPError "500 Server Error"))) connector.

End Scenario.

(** ** Properties *)

(** *** The helpers *)

Lemma update_integration_request_found w name doc status output error :
  requests w !! name = Some doc ->
  update_integration_request (Some name) status output error w
  = (Ok tt, set_requests (<[name := updated doc status output error]> (requests w)) w).
Proof.
  intros Hdoc.
  unfold update_integration_request, bind, frappe_get_doc.
  now rewrite Hdoc.
Qed.

Lemma update_integration_request_missing w name status output error :
  requests w !! name = None ->
  update_integration_request (Some name) status output error w
  = (Raise (DoesNotExistError (Some name)), w).
Proof.
  intros Hdoc.
  unfold update_integration_request, bind, frappe_get_doc.
  now rewrite Hdoc.
Qed.

Lemma ErrorObserver_update_truthy err name doc w :
  truthy err = true ->
  requests w !! name = Some doc ->
  ErrorObserver_update
    {| notifier_error := err; notifier_integration_request := Some name |} w
  = (Raise (DataError (py_str err)), reported err name doc w).
Proof.
  intros Herr Hdoc.
  unfold ErrorObserver_update; cbn [notifier_error notifier_integration_request].
  rewrite Herr.
  unfold bind at 1. unfold bind at 1.
  cbn [frappe_log_error modify].
  erewrite update_integration_request_found by exact Hdoc.
  reflexivity.
Qed.

Lemma ErrorObserver_update_falsy notifier w :
  truthy (notifier_error notifier) = false ->
  ErrorObserver_update notifier w = (Ok tt, w).
Proof.
  intros Herr. unfold ErrorObserver_update. now rewrite Herr.
Qed.

(** *** The callback handler *)

Lemma results_callback_url_failure w result doc :
  ResultCode result <> 0 ->
  requests w !! Result_OriginatorConversationID result = Some doc ->
  results_callback_url (Some result) w
  = (Ok tt,
     set_requests
       (<[Result_OriginatorConversationID result :=
            updated doc Failed (Some (OutputResult result)) (Some (ResultDesc result))]>
          (requests w)) w).
Proof.
  intros Hcode Hdoc.
  unfold results_callback_url, bind; cbn [subscript ret].
  apply Z.eqb_neq in Hcode. rewrite Hcode. cbn [negb].
  now apply update_integration_request_found.
Qed.

Lemma results_callback_url_success w result :
  ResultCode result = 0 ->
  results_callback_url (Some result) w = (Ok tt, w).
Proof.
  intros Hcode.
  unfold results_callback_url, bind; cbn [subscript ret].
  now rewrite Hcode.
Qed.

(** Two failure callbacks for the same request: the record holds what the
    second one wrote, whatever the first one left. *)
Lemma results_callback_url_failure_twice w first second doc :
  Result_OriginatorConversationID first = Result_OriginatorConversationID second ->
  ResultCode first <> 0 ->
  ResultCode second <> 0 ->
  requests w !! Result_OriginatorConversationID first = Some doc ->
  let w1 := (results_callback_url (Some first) w).2 in
  let w2 := (results_callback_url (Some second) w1).2 in
  requests w2 !! Result_OriginatorConversationID second
  = Some (updated doc Failed (Some (OutputResult second)) (Some (ResultDesc second))).
Proof.
  intros Hid H1 H2 Hdoc w1 w2. subst w1 w2.
  rewrite (results_callback_url_failure w first doc H1 Hdoc). cbn [snd].
  rewrite (results_callback_url_failure _ second
             (updated doc Failed (Some (OutputResult first)) (Some (ResultDesc first)))).
  - cbn [snd requests set_requests]. now rewrite lookup_insert_eq.
  - exact H2.
  - rewrite <- Hid. cbn [requests set_requests]. now rewrite lookup_insert_eq.
Qed.

(** C2 (at the input where the code departs from the claim).  A callback
    with [ResultCode = 0] for the pending request "X" returns without
    touching the record: it is still Pending, not Completed, and no output
    is stored. *)
Theorem callback_success_leaves_request_pending :
  let w := Scenario.world_with_request Scenario.pending_doc in
  let out := results_callback_url (Some (Scenario.envelope 0 "Processed")) w in
  out.1 = Ok tt /\
  out.2 = w /\
  ir_status <$> requests out.2 !! "X" = Some Pending /\
  ir_output <$> requests out.2 !! "X" = Some None.
Proof.
  cbv zeta.
  rewrite results_callback_url_success by reflexivity.
  repeat split; vm_compute; reflexivity.
Qed.

(** C8 (at the input where the code departs from the claim).  A failure
    callback followed by a success callback for the same request "X":
    the record still shows the first call (Failed, "Insufficient funds"),
    nothing of the second. *)
Theorem callback_success_after_failure_keeps_first :
  let first := Scenario.envelope 1 "Insufficient funds" in
  let second := Scenario.envelope 0 "Processed" in
  let w := Scenario.world_with_request Scenario.pending_doc in
  let w1 := (results_callback_url (Some first) w).2 in
  let out := results_callback_url (Some second) w1 in
  out.1 = Ok tt /\
  requests out.2 !! "X"
  = Some (updated Scenario.pending_doc Failed (Some (OutputResult first))
            (Some "Insufficient funds")).
Proof.
  cbv zeta.
  rewrite (results_callback_url_success _ (Scenario.envelope 0 "Processed")) by reflexivity.
  split; [reflexivity|].
  erewrite results_callback_url_failure; [|discriminate|vm_compute; reflexivity].
  cbn [snd requests set_requests Scenario.envelope Result_OriginatorConversationID].
  now rewrite lookup_insert_eq.
Qed.

(** C10.  [update_integration_request] writes all three of status, output
    and error on every call, leaving the other fields alone; since
    [ErrorObserver.update] passes no [output], reporting an error sets the
    record's output to [None], whatever was stored before. *)
Theorem update_integration_request_overwrites_all
    (w : World) (name : string) (doc : IntegrationRequest) :
  requests w !! name = Some doc ->
  (forall status output error,
      exists w' doc',
        update_integration_request (Some name) status output error w = (Ok tt, w') /\
        requests w' !! name = Some doc' /\
        ir_status doc' = status /\ ir_output doc' = output /\ ir_error doc' = error /\
        ir_url doc' = ir_url doc /\ ir_data doc' = ir_data doc /\
        ir_request_headers doc' = ir_request_headers doc) /\
  (forall err,
      truthy err = true ->
      exists w' doc',
        ErrorObserver_update
          {| notifier_error := err; notifier_integration_request := Some name |} w
        = (Raise (DataError (py_str err)), w') /\
        requests w' !! name = Some doc' /\
        ir_status doc' = Failed /\ ir_output doc' = None /\
        ir_error doc' = Some (py_str err)).
Proof.
  intros Hdoc. split.
  - intros status output error.
    eexists _, _. split.
    + exact (update_integration_request_found w name doc status output error Hdoc).
    + cbn [requests set_requests]. rewrite lookup_insert_eq. now repeat split.
  - intros err Herr.
    eexists _, _. split.
    + exact (ErrorObserver_update_truthy err name doc w Herr Hdoc).
    + unfold reported. cbn [requests set_requests]. rewrite lookup_insert_eq.
      now repeat split.
Qed.

(** Witness for C10: request "X" holds an output; a transport error is
    reported against it and the output is gone. *)
Lemma update_integration_request_overwrites_all_witness :
  let doc := updated Scenario.pending_doc Completed (Some (OutputText "ack")) None in
  let w := Scenario.world_with_request doc in
  exists w' doc',
    ErrorObserver_update
      {| notifier_error := Some (ErrException (ConnectionError "refused"));
         notifier_integration_request := Some "X" |} w
    = (Raise (DataError "refused"), w') /\
    requests w' !! "X" = Some doc' /\
    ir_status doc' = Failed /\ ir_output doc' = None /\
    ir_error doc' = Some "refused".
Proof.
  cbv zeta.
  refine (proj2 (update_integration_request_overwrites_all
                   (Scenario.world_with_request _) "X" _ _)
            (Some (ErrException (ConnectionError "refused"))) _).
  - vm_compute. reflexivity.
  - reflexivity.
Defined.

(** *** The notifier *)

Lemma bind_eq {S A B} (m : M S A) (k : A -> M S B) (s : S) :
  bind m k s
  = match m s with
    | (Ok a, s') => k a s'
    | (Raise e, s') => (Raise e, s')
    end.
Proof. reflexivity. Qed.

(** Case analysis along the control flow of an unfolded method. *)
Ltac exec :=
  repeat (cbn -[Z.ltb Z.leb Z.add Z.mul String.append datetime_max] in *;
          try case_match; simplify_eq).

Lemma notify_unfold c w :
  notify (c, w)
  = ((notify_each (_observers c) (as_notifier c) w).1,
     (c, (notify_each (_observers c) (as_notifier c) w).2)).
Proof.
  unfold notify, bind, self, in_world.
  now destruct (notify_each _ _ w).
Qed.

(** Observers are served from the front of the list; a raising observer
    ends the dispatch. *)
Lemma notify_each_app l1 l2 notifier w :
  notify_each (l1 ++ l2) notifier w
  = match notify_each l1 notifier w with
    | (Ok _, w1) => notify_each l2 notifier w1
    | (Raise e, w1) => (Raise e, w1)
    end.
Proof.
  revert w. induction l1 as [|o l1 IH]; intros w; [reflexivity|].
  cbn [app notify_each]. unfold bind.
  destruct (update o notifier w) as [[[]|e] w1]; [apply IH | reflexivity].
Qed.

Lemma notify_each_singleton o notifier w :
  notify_each [o] notifier w = update o notifier w.
Proof.
  cbn [notify_each]. unfold bind, ret.
  now destruct (update o notifier w) as [[[]|e] w1].
Qed.

Lemma notify_each_falsy l notifier w :
  forallb is_ErrorObserver l = true ->
  truthy (notifier_error notifier) = false ->
  notify_each l notifier w = (Ok tt, w).
Proof.
  intros Hall Herr. induction l as [|o l IH]; [reflexivity|].
  cbn [forallb] in Hall. apply andb_prop in Hall as [Ho Hl].
  destruct o; [|discriminate].
  cbn [notify_each update]. unfold bind.
  rewrite ErrorObserver_update_falsy by exact Herr.
  now apply IH.
Qed.

Lemma notify_each_truthy rest err name doc w :
  truthy err = true ->
  requests w !! name = Some doc ->
  notify_each (ErrorObserver :: rest)
    {| notifier_error := err; notifier_integration_request := Some name |} w
  = (Raise (DataError (py_str err)), reported err name doc w).
Proof.
  intros Herr Hdoc.
  cbn [notify_each update]. unfold bind.
  now rewrite (ErrorObserver_update_truthy err name doc w Herr Hdoc).
Qed.

(** C5, as the code has it.  For a connector whose observers are
    [ErrorObserver]s (as after construction): when the error field is
    truthy and the connector's integration request exists, [notify] appends
    exactly one log entry, marks that request Failed with the stringified
    error, touches nothing else and raises [DataError] with the same text;
    when the error field is falsy ([None], or the empty string), [notify]
    returns normally and leaves connector and world as they were. *)
Theorem notify_reports_iff_error_truthy
    (c : Connector) (w : World) (rest : list Observer) :
  _observers c = ErrorObserver :: rest ->
  forallb is_ErrorObserver rest = true ->
  if truthy (error c)
  then forall name doc,
      integration_request c = Some name ->
      requests w !! name = Some doc ->
      exists w',
        notify (c, w) = (Raise (DataError (py_str (error c))), (c, w')) /\
        error_log w'
        = (error_log w ++ [{| log_title := "HTTPError";
                              log_message := py_str (error c) |}])%list /\
        requests w'
        = <[name := updated doc Failed None (Some (py_str (error c)))]> (requests w) /\
        tokens w' = tokens w /\ http_trace w' = http_trace w
  else notify (c, w) = (Ok tt, (c, w)).
Proof.
  intros Hobs Hrest.
  destruct (truthy (error c)) eqn:Herr.
  - intros name doc Hname Hdoc.
    exists (reported (error c) name doc w).
    rewrite notify_unfold, Hobs. unfold as_notifier. rewrite Hname.
    rewrite (notify_each_truthy rest (error c) name doc w Herr Hdoc).
    now repeat split.
  - rewrite notify_unfold, Hobs.
    rewrite notify_each_falsy; [reflexivity| |exact Herr].
    cbn [forallb is_ErrorObserver andb]. exact Hrest.
Qed.

(** Witness for C5: a fresh connector that has recorded a connection error
    against the pending request "X". *)
Lemma notify_reports_iff_error_truthy_witness :
  let c := set_integration_request (Some "X")
             (set_error (Some (ErrException (ConnectionError "refused")))
                Scenario.connector) in
  let w := Scenario.world_with_request Scenario.pending_doc in
  exists w',
    notify (c, w) = (Raise (DataError "refused"), (c, w')) /\
    error_log w' = [{| log_title := "HTTPError"; log_message := "refused" |}] /\
    requests w'
    = <["X" := updated Scenario.pending_doc Failed None (Some "refused")]> (requests w) /\
    tokens w' = tokens w /\ http_trace w' = http_trace w.
Proof.
  cbv zeta.
  refine (notify_reports_iff_error_truthy
            (set_integration_request (Some "X")
               (set_error (Some (ErrException (ConnectionError "refused")))
                  Scenario.connector))
            (Scenario.world_with_request Scenario.pending_doc) []
            _ _ "X" Scenario.pending_doc _ _).
  - reflexivity.
  - reflexivity.
  - reflexivity.
  - vm_compute. reflexivity.
Defined.

(** C5 as stated fails: the error field is set (not [None]) to the empty
    string, and [notify] neither logs, nor touches the request, nor raises. *)
Lemma notify_silent_on_empty_error_text :
  let c := set_integration_request (Some "X")
             (set_error (Some (ErrText "")) Scenario.connector) in
  let w := Scenario.world_with_request Scenario.pending_doc in
  error c <> None /\ notify (c, w) = (Ok tt, (c, w)).
Proof.
  cbv zeta. split; [discriminate|].
  rewrite notify_unfold. reflexivity.
Qed.

(** *** Authentication *)

Ltac unfold_program :=
  unfold make_b2c_payment_request, create_integration_request, submit,
    lookup_or_authenticate, authenticate, notify,
    save_access_token, frappe_new_doc, token_doc_save, token_doc_submit,
    create_request_log, get_decrypted_password, frappe_db_get_value,
    http_get, http_post, raise_for_status, response_json, py_int,
    datetime_add_seconds, datetime_now, subscript, frappe_throw,
    in_world, self, self_update, attempt, try_except, bind, raise, ret in *.

(** [authenticate] calls the token endpoint exactly once, whatever follows. *)
Lemma authenticate_trace X setting c w :
  http_trace (authenticate X setting (c, w)).2.2
  = (http_trace w
       ++ [HttpGet (base_url c +:+ authenticate_uri) (app_key c) (app_secret c)])%list.
Proof. unfold_program. exec; reflexivity. Qed.

(** [authenticate] leaves requests, error log and the connector's observers,
    error, request name and base URL alone. *)
Lemma authenticate_frame X setting c w :
  let st := (authenticate X setting (c, w)).2 in
  _observers st.1 = _observers c /\ base_url st.1 = base_url c /\
  error st.1 = error c /\ integration_request st.1 = integration_request c /\
  requests st.2 = requests w /\ error_log st.2 = error_log w.
Proof. unfold_program. exec; now repeat split. Qed.

(** C7.  When the token endpoint answers with a status of 400 or more,
    [authenticate] raises the user-facing error of [frappe.throw] (the
    specification's AuthenticationError), whose message quotes the setting;
    the connector is unchanged and so are the stored tokens: the only
    trace of the call is the HTTP request itself. *)
Theorem authenticate_rejected
    (X : Externals) (setting : string) (c : Connector) (w : World)
    (r : Response TokenJson) :
  requests_get X (base_url c +:+ authenticate_uri) (app_key c) (app_secret c) = Ok r ->
  400 <= status_code r ->
  exists w',
    authenticate X setting (c, w)
    = (Raise (ValidationError
                ("Can't get token with provided Credentials for setting: <b>"
                   +:+ setting +:+ "</b>")),
       (c, w')) /\
    tokens w' = tokens w /\
    requests w' = requests w /\
    error_log w' = error_log w.
Proof.
  intros Hget Hstatus.
  eexists. split.
  - unfold_program. rewrite Hget.
    apply Z.ltb_ge in Hstatus. rewrite Hstatus. reflexivity.
  - now repeat split.
Qed.

(** Witness for C7: the token endpoint answers 401. *)
Lemma authenticate_rejected_witness :
  exists w',
    authenticate Scenario.auth_401 "Main" (Scenario.connector, Scenario.empty_world)
    = (Raise (ValidationError
                "Can't get token with provided Credentials for setting: <b>Main</b>"),
       (Scenario.connector, w')) /\
    tokens w' = [] /\ requests w' = ∅ /\ error_log w' = [].
Proof.
  refine (authenticate_rejected Scenario.auth_401 "Main" Scenario.connector
            Scenario.empty_world (Scenario.token_response 401) _ _).
  - reflexivity.
  - vm_compute. discriminate.
Defined.

Lemma authenticate_accepted X setting c w r body token seconds :
  requests_get X (base_url c +:+ authenticate_uri) (app_key c) (app_secret c) = Ok r ->
  status_code r < 400 ->
  json r = Some body ->
  json_access_token body = Some token ->
  json_expires_in body = Some (Some seconds) ->
  0 <= now_reading X (clock_reads w) + seconds * 1000000 <= datetime_max ->
  token_doc_accepted X (issued_token X setting token seconds w) = true ->
  authenticate X setting (c, w)
  = (Ok {| res_access_token := token;
           res_expires_in := expiry_time (issued_token X setting token seconds w);
           res_fetched_time := token_fetch_time (issued_token X setting token seconds w) |},
     (set_expires_in (Some (expiry_time (issued_token X setting token seconds w)))
        (set_authentication_token (Some token) c),
      set_tokens (issued_token X setting token seconds w :: tokens w)
        (set_clock_reads (S (S (clock_reads w)))
           (set_http_trace
              (http_trace w
                 ++ [HttpGet (base_url c +:+ authenticate_uri) (app_key c) (app_secret c)])
              w)))).
Proof.
  intros Hget Hstatus Hjson Htoken Hsecs [Hlo Hhi] Hsave.
  unfold token_doc_accepted in Hsave. apply andb_prop in Hsave as [Hsaved Hsubmitted].
  unfold issued_token in *. unfold_program.
  rewrite Hget. apply Z.ltb_lt in Hstatus. rewrite Hstatus.
  rewrite Hjson, Htoken, Hsecs.
  cbn -[Z.add Z.mul Z.leb datetime_max String.append].
  apply Z.leb_le in Hlo, Hhi. rewrite Hlo, Hhi.
  cbn -[Z.add Z.mul Z.leb datetime_max String.append].
  rewrite Hsaved, Hsubmitted. reflexivity.
Qed.

(** C4, as the code has it.  On a response with status below 400 whose
    body carries [access_token] and an integer [expires_in], and when the
    store takes the document, [authenticate] persists exactly one new token
    document for the setting and returns access token, absolute expiry and
    fetch time.  The expiry is the first clock reading plus [expires_in]
    seconds; the fetch time is the next clock reading.  So
    [expiry_time = token_fetch_time + expires_in] holds exactly when the two
    readings coincide, and [<=] holds when the clock does not run backwards. *)
Theorem authenticate_success
    (X : Externals) (setting : string) (c : Connector) (w : World)
    (r : Response TokenJson) (body : TokenJson) (token : string) (seconds : Z) :
  requests_get X (base_url c +:+ authenticate_uri) (app_key c) (app_secret c) = Ok r ->
  status_code r < 400 ->
  json r = Some body ->
  json_access_token body = Some token ->
  json_expires_in body = Some (Some seconds) ->
  0 <= now_reading X (clock_reads w) + seconds * 1000000 <= datetime_max ->
  token_doc_accepted X (issued_token X setting token seconds w) = true ->
  let t1 := now_reading X (clock_reads w) in
  let t2 := now_reading X (S (clock_reads w)) in
  exists c' w' doc,
    authenticate X setting (c, w)
    = (Ok {| res_access_token := token;
             res_expires_in := expiry_time doc;
             res_fetched_time := token_fetch_time doc |}, (c', w')) /\
    tokens w' = doc :: tokens w /\
    associated_settings doc = setting /\
    access_token doc = token /\
    expiry_time doc = t1 + seconds * 1000000 /\
    token_fetch_time doc = t2 /\
    (expiry_time doc = token_fetch_time doc + seconds * 1000000 <-> t1 = t2) /\
    (t1 <= t2 -> expiry_time doc <= token_fetch_time doc + seconds * 1000000) /\
    authentication_token c' = Some token /\
    expires_in c' = Some (expiry_time doc).
Proof.
  intros Hget Hstatus Hjson Htoken Hsecs Hrange Hsave t1 t2.
  eexists _, _, (issued_token X setting token seconds w). split.
  - exact (authenticate_accepted X setting c w r body token seconds
             Hget Hstatus Hjson Htoken Hsecs Hrange Hsave).
  - subst t1 t2. cbn [tokens set_tokens issued_token associated_settings access_token
                      expiry_time token_fetch_time authentication_token expires_in
                      set_expires_in set_authentication_token].
    repeat split; try reflexivity; intros; lia.
Qed.

(** Witness for C4: token "abc" valid for 3600 seconds, fetched by a fresh
    connector while the clock ticks between the two readings. *)
Lemma authenticate_success_witness :
  exists c' w' doc,
    authenticate Scenario.all_ok "Main" (Scenario.connector, Scenario.empty_world)
    = (Ok {| res_access_token := "abc";
             res_expires_in := expiry_time doc;
             res_fetched_time := token_fetch_time doc |}, (c', w')) /\
    tokens w' = [doc] /\
    associated_settings doc = "Main" /\
    access_token doc = "abc" /\
    expiry_time doc = 1000000 + 3600 * 1000000 /\
    token_fetch_time doc = 1000001 /\
    (expiry_time doc = token_fetch_time doc + 3600 * 1000000 <-> 1000000 = 1000001) /\
    (1000000 <= 1000001 -> expiry_time doc <= token_fetch_time doc + 3600 * 1000000) /\
    authentication_token c' = Some "abc" /\
    expires_in c' = Some (expiry_time doc).
Proof.
  refine (authenticate_success Scenario.all_ok "Main" Scenario.connector
            Scenario.empty_world (Scenario.token_response 200)
            {| json_access_token := Some "abc"; json_expires_in := Some (Some 3600) |}
            "abc" 3600 _ _ _ _ _ _ _).
  - reflexivity.
  - reflexivity.
  - reflexivity.
  - reflexivity.
  - reflexivity.
  - vm_compute. split; discriminate.
  - reflexivity.
Defined.

(** C4 as stated fails: the token endpoint answers 200 with
    [expires_in = 3600], the call succeeds and stores one document, and its
    expiry is not its fetch time plus 3600 seconds (the clock has moved by a
    microsecond between the two readings). *)
Lemma authenticate_expiry_is_not_fetch_time_plus_expires_in :
  let out := authenticate Scenario.all_ok "Main"
               (Scenario.connector, Scenario.empty_world) in
  exists res doc,
    out.1 = Ok res /\
    tokens out.2.2 = [doc] /\
    expiry_time doc <> token_fetch_time doc + 3600 * 1000000.
Proof.
  cbv zeta.
  eexists _, _. split; [|split].
  - vm_compute. reflexivity.
  - vm_compute. reflexivity.
  - vm_compute. discriminate.
Qed.

(** *** Payment submission, phase by phase *)

Lemma create_integration_request_fresh X request_data c w :
  requests w !! OriginatorConversationID request_data = None ->
  create_integration_request X request_data (c, w)
  = (Ok (saf_url_of c, payload_of X request_data, headers_of c),
     (set_integration_request (Some (OriginatorConversationID request_data)) c,
      set_requests
        (<[OriginatorConversationID request_data :=
             new_request (saf_url_of c) (payload_of X request_data) (headers_of c)]>
           (requests w)) w)).
Proof. intros Hfresh. unfold_program. now rewrite Hfresh. Qed.

Lemma create_integration_request_duplicate X request_data c w doc :
  requests w !! OriginatorConversationID request_data = Some doc ->
  create_integration_request X request_data (c, w)
  = (Raise (DuplicateEntryError (OriginatorConversationID request_data)), (c, w)).
Proof. intros Hdup. unfold_program. now rewrite Hdup. Qed.

Lemma submit_success X url payload headers c w r body :
  requests_post X url payload headers = Ok r ->
  status_code r < 400 ->
  json r = Some body ->
  submit X url payload headers (c, w)
  = (Ok body, (c, called (HttpPost url payload headers) w)).
Proof.
  intros Hpost Hstatus Hjson. unfold_program. rewrite Hpost.
  replace (400 <=? status_code r) with false by (symmetry; apply Z.leb_gt; lia).
  cbn [andb]. now rewrite Hjson.
Qed.

Lemma submit_failure X url payload headers c w rest name doc e :
  post_failure X url payload headers = Some e ->
  _observers c = ErrorObserver :: rest ->
  integration_request c = Some name ->
  requests w !! name = Some doc ->
  submit X url payload headers (c, w)
  = (Raise (DataError (exn_str e)),
     (set_error (Some (ErrException e)) c,
      reported (Some (ErrException e)) name doc (called (HttpPost url payload headers) w))).
Proof.
  intros Hfail Hobs Hname Hdoc.
  assert (Hnotify : forall e',
    notify (set_error (Some (ErrException e')) c,
            called (HttpPost url payload headers) w)
    = (Raise (DataError (exn_str e')),
       (set_error (Some (ErrException e')) c,
        reported (Some (ErrException e')) name doc
          (called (HttpPost url payload headers) w)))).
  { intros e'. rewrite notify_unfold. cbn [_observers set_error]. rewrite Hobs.
    unfold as_notifier. cbn [error integration_request set_error]. rewrite Hname.
    now rewrite (notify_each_truthy rest (Some (ErrException e')) name doc). }
  unfold post_failure in Hfail.
  unfold submit, attempt, http_post, in_world, try_except, raise_for_status,
    self_update, bind at 1 2 3.
  destruct (requests_post X url payload headers) as [r|e0].
  - destruct ((400 <=? status_code r) && (status_code r <? 600)); [|discriminate].
    injection Hfail as <-.
    unfold bind, raise, ret. cbn [is_http_or_connection_error].
    fold (called (HttpPost url payload headers) w).
    now rewrite Hnotify.
  - destruct (is_http_or_connection_error e0); [|discriminate].
    injection Hfail as <-.
    unfold bind, raise, ret.
    fold (called (HttpPost url payload headers) w).
    now rewrite Hnotify.
Qed.

(** A failure of [requests.post] that the [except] clause does not name
    (a read timeout, say) passes through: nothing is logged and the
    request keeps the status it had. *)
Lemma submit_unhandled X url payload headers c w e :
  requests_post X url payload headers = Raise e ->
  is_http_or_connection_error e = false ->
  submit X url payload headers (c, w)
  = (Raise e, (c, called (HttpPost url payload headers) w)).
Proof.
  intros Hpost He. unfold_program. now rewrite Hpost, He.
Qed.

(** The token phase leaves requests, error log and the connector's
    observers, error, request name and base URL alone. *)
Lemma lookup_or_authenticate_frame X request_data c w :
  let st := (lookup_or_authenticate X request_data (c, w)).2 in
  _observers st.1 = _observers c /\ base_url st.1 = base_url c /\
  error st.1 = error c /\ integration_request st.1 = integration_request c /\
  requests st.2 = requests w /\ error_log st.2 = error_log w.
Proof. unfold_program. exec; now repeat split. Qed.

(** C3, as the code has it.  Once the token phase has gone through and the
    request has been logged, let [e] be the exception that ends the [try]
    block.  If [e] is a [ConnectionError] or an [HTTPError] (raised by
    [requests.post], or by [raise_for_status] on a 4xx/5xx answer), it is
    logged once, the Integration Request is marked Failed with its text,
    the connector keeps it in [self.error], and the call raises [DataError]
    with that text.  Any other exception of [requests.post] leaves the call
    as it is: it reaches the caller, nothing is logged, [self.error] is
    unchanged, and the Integration Request stays Pending. *)
Theorem make_b2c_payment_request_failure
    (X : Externals) (request_data : B2CRequestDefinition)
    (c c1 : Connector) (w w1 : World) (rest : list Observer) (e : Exn) :
  _observers c = ErrorObserver :: rest ->
  requests w !! OriginatorConversationID request_data = None ->
  lookup_or_authenticate X request_data (c, w) = (Ok tt, (c1, w1)) ->
  try_failure X (saf_url_of c1) (payload_of X request_data) (headers_of c1) = Some e ->
  exists c' w' doc,
    requests w' !! OriginatorConversationID request_data = Some doc /\
    if is_http_or_connection_error e
    then
      make_b2c_payment_request X request_data (c, w)
      = (Raise (DataError (exn_str e)), (c', w')) /\
      error c' = Some (ErrException e) /\
      error_log w'
      = (error_log w ++ [{| log_title := "HTTPError"; log_message := exn_str e |}])%list /\
      ir_status doc = Failed /\
      ir_error doc = Some (exn_str e)
    else
      make_b2c_payment_request X request_data (c, w) = (Raise e, (c', w')) /\
      error c' = error c /\
      error_log w' = error_log w /\
      ir_status doc = Pending /\
      ir_error doc = None.
Proof.
  intros Hobs Hfresh Hlookup Hfail.
  pose proof (lookup_or_authenticate_frame X request_data c w) as Hframe.
  rewrite Hlookup in Hframe. cbn [fst snd] in Hframe.
  destruct Hframe as (Hobs1 & _ & Herr1 & _ & Hreq1 & Hlog1).
  assert (Hmake : make_b2c_payment_request X request_data (c, w)
                  = submit X (saf_url_of c1) (payload_of X request_data) (headers_of c1)
                      (set_integration_request
                         (Some (OriginatorConversationID request_data)) c1,
                       set_requests
                         (<[OriginatorConversationID request_data :=
                              new_request (saf_url_of c1) (payload_of X request_data)
                                (headers_of c1)]> (requests w1)) w1)).
  { unfold make_b2c_payment_request. rewrite bind_eq, Hlookup, bind_eq.
    now rewrite create_integration_request_fresh by (now rewrite Hreq1). }
  rewrite Hmake. clear Hmake.
  set (c2 := set_integration_request (Some (OriginatorConversationID request_data)) c1).
  set (doc := new_request (saf_url_of c1) (payload_of X request_data) (headers_of c1)).
  set (w2 := set_requests (<[OriginatorConversationID request_data := doc]> (requests w1)) w1).
  set (post := HttpPost (saf_url_of c1) (payload_of X request_data) (headers_of c1)).
  destruct (is_http_or_connection_error e) eqn:Hhandled.
  - assert (Hpost : post_failure X (saf_url_of c1) (payload_of X request_data)
                      (headers_of c1) = Some e).
    { unfold try_failure in Hfail. unfold post_failure.
      destruct (requests_post X _ _ _) as [r|e0]; [exact Hfail|].
      injection Hfail as ->. now rewrite Hhandled. }
    exists (set_error (Some (ErrException e)) c2),
      (reported (Some (ErrException e)) (OriginatorConversationID request_data) doc
         (called post w2)),
      (updated doc Failed None (Some (exn_str e))).
    split; [|split].
    + unfold reported. cbn [requests set_requests]. apply lookup_insert_eq.
    + apply (submit_failure _ _ _ _ _ _ rest _ _ _ Hpost).
      * subst c2. cbn [_observers set_integration_request]. rewrite Hobs1. exact Hobs.
      * reflexivity.
      * subst w2. cbn [requests set_requests]. apply lookup_insert_eq.
    + unfold reported, called. subst w2 c2.
      cbn [error set_error error_log set_requests set_error_log set_http_trace].
      rewrite Hlog1. now repeat split.
  - assert (Hpost : requests_post X (saf_url_of c1) (payload_of X request_data)
                      (headers_of c1) = Raise e).
    { unfold try_failure in Hfail.
      destruct (requests_post X _ _ _) as [r|e0]; [|now injection Hfail as ->].
      destruct ((400 <=? status_code r) && (status_code r <? 600)); [|discriminate].
      injection Hfail as <-. discriminate. }
    exists c2, (called post w2), doc.
    split; [|split].
    + unfold called. subst w2. cbn [requests set_requests set_http_trace].
      apply lookup_insert_eq.
    + exact (submit_unhandled _ _ _ _ _ _ e Hpost Hhandled).
    + unfold called. subst w2 c2.
      cbn [error set_integration_request error_log set_requests set_http_trace].
      now repeat split.
Qed.

(** Witness for C3: the scenario "submission returns HTTP 500". *)
Lemma make_b2c_payment_request_failure_witness :
  exists c' w' doc,
    requests w' !! "X" = Some doc /\
    make_b2c_payment_request Scenario.post_500 Scenario.request
      (Scenario.connector, Scenario.empty_world)
    = (Raise (DataError "500 Server Error"), (c', w')) /\
    error c' = Some (ErrException (HTTPError "500 Server Error")) /\
    error_log w'
    = [{| log_title := "HTTPError"; log_message := "500 Server Error" |}] /\
    ir_status doc = Failed /\
    ir_error doc = Some "500 Server Error".
Proof.
  refine (make_b2c_payment_request_failure Scenario.post_500 Scenario.request
            Scenario.connector
            (lookup_or_authenticate Scenario.post_500 Scenario.request
               (Scenario.connector, Scenario.empty_world)).2.1
            Scenario.empty_world
            (lookup_or_authenticate Scenario.post_500 Scenario.request
               (Scenario.connector, Scenario.empty_world)).2.2
            [] (HTTPError "500 Server Error") _ _ _ _).
  - reflexivity.
  - reflexivity.
  - vm_compute. reflexivity.
  - vm_compute. reflexivity.
Defined.

(** C3 as stated fails: the POST runs into a read timeout, which is a
    failure of the submission; the call raises, but nothing is logged,
    [self.error] stays unset and the Integration Request is still Pending. *)
Lemma make_b2c_payment_request_read_timeout_stays_pending :
  let X := Scenario.outside (Ok (Scenario.token_response 200))
             (Raise (RequestException "Read timed out")) true in
  let out := make_b2c_payment_request X Scenario.request
               (Scenario.connector, Scenario.empty_world) in
  out.1 = Raise (RequestException "Read timed out") /\
  error out.2.1 = None /\
  error_log out.2.2 = [] /\
  (ir_status <$> requests out.2.2 !! "X") = Some Pending.
Proof.
  cbv zeta. repeat split; vm_compute; reflexivity.
Qed.




(** *** Token reuse *)

(** [frappe.db.get_value] finds a document exactly when one is valid. *)
Lemma get_value_finds s now (l : list AccessTokenDoc) :
  (exists d, d ∈ l /\ associated_settings d = s /\ now < expiry_time d) ->
  exists d, find (token_matches s now) l = Some d /\
            d ∈ l /\ associated_settings d = s /\ now < expiry_time d.
Proof.
  intros (d & Hin & Hs & Hexp).
  destruct (find (token_matches s now) l) as [d'|] eqn:Hfind.
  - exists d'. apply find_some in Hfind as [Hin' Hm].
    unfold token_matches in Hm. apply andb_prop in Hm as [Hs' Hexp'].
    apply bool_decide_eq_true in Hs'. apply Z.ltb_lt in Hexp'.
    repeat split; try done. now apply list_elem_of_In.
  - apply list_elem_of_In in Hin.
    pose proof (find_none _ _ Hfind d Hin) as Hm.
    unfold token_matches in Hm.
    rewrite bool_decide_eq_true_2 in Hm by exact Hs.
    apply Z.ltb_lt in Hexp. rewrite Hexp in Hm. discriminate.
Qed.

Lemma get_value_finds_none s now (l : list AccessTokenDoc) :
  (forall d, d ∈ l -> associated_settings d = s -> expiry_time d <= now) ->
  find (token_matches s now) l = None.
Proof.
  intros Hnone.
  destruct (find (token_matches s now) l) as [d|] eqn:Hfind; [|reflexivity].
  apply find_some in Hfind as [Hin Hm].
  unfold token_matches in Hm. apply andb_prop in Hm as [Hs Hexp].
  apply bool_decide_eq_true in Hs. apply Z.ltb_lt in Hexp.
  apply list_elem_of_In in Hin. specialize (Hnone d Hin Hs). lia.
Qed.

(** With unique document names, looking a document up by its name gives
    that document. *)
Lemma find_by_name (l : list AccessTokenDoc) d :
  NoDup (tok_name <$> l) ->
  d ∈ l ->
  find (fun d' => bool_decide (tok_name d' = tok_name d)) l = Some d.
Proof.
  induction l as [|d0 l IH]; intros Hnodup Hin.
  - now apply elem_of_nil in Hin.
  - cbn [fmap list_fmap] in Hnodup. apply NoDup_cons in Hnodup as [Hfresh Hnodup].
    cbn [find]. apply elem_of_cons in Hin as [->|Hin].
    + now rewrite bool_decide_eq_true_2.
    + rewrite bool_decide_eq_false_2; [now apply IH|].
      intros Heq. apply Hfresh. rewrite Heq.
      now apply list_elem_of_fmap_2.
Qed.

(** The names given to new token documents keep names unique. *)
Lemma fresh_token_name_fresh (l : list AccessTokenDoc) :
  fresh_token_name l ∉ tok_name <$> l.
Proof.
  unfold fresh_token_name. intros Hin.
  apply max_list_elem_of_le in Hin. lia.
Qed.

Lemma lookup_or_authenticate_cached X request_data c w d :
  find (token_matches (Setting request_data) (now_reading X (clock_reads w))) (tokens w)
  = Some d ->
  NoDup (tok_name <$> tokens w) ->
  lookup_or_authenticate X request_data (c, w)
  = (Ok tt, (set_authentication_token (Some (access_token d)) c,
             set_clock_reads (S (clock_reads w)) w)).
Proof.
  intros Hfind Hnodup.
  assert (Hin : d ∈ tokens w).
  { apply list_elem_of_In. now apply find_some in Hfind as [? _]. }
  unfold_program. cbn [tokens set_clock_reads]. rewrite Hfind.
  cbn [tokens set_clock_reads]. now rewrite (find_by_name _ _ Hnodup Hin).
Qed.

Lemma lookup_or_authenticate_uncached_trace X request_data c w :
  find (token_matches (Setting request_data) (now_reading X (clock_reads w))) (tokens w)
  = None ->
  http_trace (lookup_or_authenticate X request_data (c, w)).2.2
  = (http_trace w
       ++ [HttpGet (base_url c +:+ authenticate_uri)
             (Some (ConsumerKey request_data)) (Some (ConsumerSecret request_data))])%list.
Proof.
  intros Hfind. unfold_program. cbn [tokens set_clock_reads]. rewrite Hfind.
  exec; reflexivity.
Qed.

(** Whatever its outcome, the submission adds the POST to the trace and
    nothing else, and keeps the bearer token. *)
Lemma submit_trace X url payload headers c w rest name doc :
  _observers c = ErrorObserver :: rest ->
  integration_request c = Some name ->
  requests w !! name = Some doc ->
  let st := (submit X url payload headers (c, w)).2 in
  http_trace st.2 = (http_trace w ++ [HttpPost url payload headers])%list /\
  authentication_token st.1 = authentication_token c.
Proof.
  intros Hobs Hname Hdoc.
  destruct (post_failure X url payload headers) as [e|] eqn:Hfail.
  - rewrite (submit_failure _ _ _ _ _ _ rest name doc e Hfail Hobs Hname Hdoc).
    now split.
  - unfold post_failure in Hfail. unfold_program.
    destruct (requests_post X url payload headers) as [r|e].
    + destruct ((400 <=? status_code r) && (status_code r <? 600)); [discriminate|].
      now destruct (json r).
    + now destruct (is_http_or_connection_error e).
Qed.

(** Without a valid token, the token phase goes through when the token
    endpoint answers as in [authenticate_accepted], the credentials being
    those of the request. *)
Lemma lookup_or_authenticate_authenticated
    X request_data c w r body token seconds :
  let w0 := set_clock_reads (S (clock_reads w)) w in
  let c0 := set_credentials (Some (ConsumerKey request_data))
              (Some (ConsumerSecret request_data)) c in
  find (token_matches (Setting request_data) (now_reading X (clock_reads w))) (tokens w)
  = None ->
  requests_get X (base_url c +:+ authenticate_uri)
    (Some (ConsumerKey request_data)) (Some (ConsumerSecret request_data)) = Ok r ->
  status_code r < 400 ->
  json r = Some body ->
  json_access_token body = Some token ->
  json_expires_in body = Some (Some seconds) ->
  0 <= now_reading X (clock_reads w0) + seconds * 1000000 <= datetime_max ->
  token_doc_accepted X (issued_token X (Setting request_data) token seconds w0) = true ->
  exists c1 w1,
    lookup_or_authenticate X request_data (c, w) = (Ok tt, (c1, w1)) /\
    authentication_token c1 = Some token /\
    tokens w1 = issued_token X (Setting request_data) token seconds w0 :: tokens w.
Proof.
  intros w0 c0 Hfind Hget Hstatus Hjson Htoken Hsecs Hrange Hsave.
  pose proof (authenticate_accepted X (Setting request_data) c0 w0 r body token seconds
                Hget Hstatus Hjson Htoken Hsecs Hrange Hsave) as Hauth.
  eexists _, _. split; [|split].
  - unfold lookup_or_authenticate.
    unfold bind at 1. unfold in_world at 1, datetime_now at 1.
    unfold bind at 1. unfold in_world at 1, frappe_db_get_value at 1.
    cbn [tokens set_clock_reads]. rewrite Hfind.
    unfold bind at 1, self_update at 1.
    unfold bind at 1. fold w0 c0. rewrite Hauth. reflexivity.
  - reflexivity.
  - reflexivity.
Qed.

(** Storing an issued token keeps document names unique. *)
Lemma authenticate_keeps_names_unique X setting c w :
  NoDup (tok_name <$> tokens w) ->
  NoDup (tok_name <$> tokens (authenticate X setting (c, w)).2.2).
Proof.
  intros Hnodup.
  assert (Hnew : NoDup (fresh_token_name (tokens w) :: (tok_name <$> tokens w))).
  { apply NoDup_cons. split; [apply fresh_token_name_fresh | exact Hnodup]. }
  unfold_program. exec; try exact Hnodup; exact Hnew.
Qed.

(** What follows the token phase makes no call to the token endpoint, and
    any POST carries the bearer token the connector holds then. *)
Lemma log_and_submit_trace X request_data c w rest :
  _observers c = ErrorObserver :: rest ->
  let st := ((locals <- create_integration_request X request_data ;;
              let '(saf_url, payload, headers) := locals in
              submit X saf_url payload headers) (c, w)).2 in
  exists calls,
    http_trace st.2 = (http_trace w ++ calls)%list /\
    count_gets calls = 0%nat /\
    (forall url data headers,
        HttpPost url data headers ∈ calls -> headers = headers_of c) /\
    authentication_token st.1 = authentication_token c.
Proof.
  intros Hobs. cbv zeta. rewrite bind_eq.
  destruct (requests w !! OriginatorConversationID request_data) as [doc|] eqn:Hreq.
  - rewrite (create_integration_request_duplicate _ _ _ _ doc Hreq).
    exists []. cbn [fst snd]. rewrite app_nil_r.
    repeat split. intros ? ? ? Hin. now apply elem_of_nil in Hin.
  - rewrite (create_integration_request_fresh _ _ _ _ Hreq).
    destruct (submit_trace X (saf_url_of c) (payload_of X request_data) (headers_of c)
                (set_integration_request
                   (Some (OriginatorConversationID request_data)) c)
                (set_requests
                   (<[OriginatorConversationID request_data :=
                        new_request (saf_url_of c) (payload_of X request_data)
                          (headers_of c)]> (requests w)) w)
                rest (OriginatorConversationID request_data)
                (new_request (saf_url_of c) (payload_of X request_data) (headers_of c)))
      as [Htrace Htoken].
    + cbn [_observers set_integration_request]. exact Hobs.
    + reflexivity.
    + cbn [requests set_requests]. apply lookup_insert_eq.
    + eexists. split; [exact Htrace|]. split; [reflexivity|]. split; [|exact Htoken].
      intros url data headers Hin.
      apply list_elem_of_singleton in Hin. now injection Hin as _ _ ->.
Qed.

(** C1.  For a connector wired as construction leaves it and a token store
    with unique document names: if the store holds a token for the
    request's setting whose expiry is later than the clock reading taken by
    the lookup, [make_b2c_payment_request] makes no call to the token
    endpoint and sends that token as the bearer; if it holds none, the
    first HTTP call is the one call to the token endpoint, made with
    [ConsumerKey] and [ConsumerSecret] of the request, and any POST comes
    after it. *)
Theorem make_b2c_payment_request_token_policy
    (X : Externals) (request_data : B2CRequestDefinition)
    (c : Connector) (w : World) (rest : list Observer) :
  _observers c = ErrorObserver :: rest ->
  NoDup (tok_name <$> tokens w) ->
  let now := now_reading X (clock_reads w) in
  let valid (d : AccessTokenDoc) :=
    d ∈ tokens w /\ associated_settings d = Setting request_data /\
    now < expiry_time d in
  let st := (make_b2c_payment_request X request_data (c, w)).2 in
  exists calls,
    http_trace st.2 = (http_trace w ++ calls)%list /\
    ((exists d, valid d) ->
     count_gets calls = 0%nat /\
     exists d, valid d /\
       authentication_token st.1 = Some (access_token d) /\
       forall url data headers,
         HttpPost url data headers ∈ calls ->
         headers = [("Authorization", "Bearer " +:+ access_token d);
                    ("Content-Type", "application/json")]) /\
    ((forall d, d ∈ tokens w -> associated_settings d = Setting request_data ->
                expiry_time d <= now) ->
     exists later,
       calls = HttpGet (base_url c +:+ authenticate_uri)
                 (Some (ConsumerKey request_data))
                 (Some (ConsumerSecret request_data)) :: later /\
       count_gets later = 0%nat).
Proof.
  intros Hobs Hnodup now valid st. subst st.
  unfold make_b2c_payment_request. rewrite bind_eq.
  destruct (find (token_matches (Setting request_data) now) (tokens w))
    as [d|] eqn:Hfind.
  - (* a valid token is cached *)
    rewrite (lookup_or_authenticate_cached _ _ _ _ d Hfind Hnodup).
    edestruct (log_and_submit_trace X request_data
                 (set_authentication_token (Some (access_token d)) c)
                 (set_clock_reads (S (clock_reads w)) w) rest Hobs)
      as (calls & Htrace & Hgets & Hposts & Htoken).
    exists calls. split; [exact Htrace|]. split.
    + intros _. split; [exact Hgets|].
      exists d. split; [|split; [exact Htoken | exact Hposts]].
      apply find_some in Hfind as [Hin Hm].
      unfold token_matches in Hm. apply andb_prop in Hm as [Hs Hexp].
      apply bool_decide_eq_true in Hs. apply Z.ltb_lt in Hexp.
      repeat split; try done. now apply list_elem_of_In.
    + intros Hnone. apply find_some in Hfind as [Hin Hm].
      unfold token_matches in Hm. apply andb_prop in Hm as [Hs Hexp].
      apply bool_decide_eq_true in Hs. apply Z.ltb_lt in Hexp.
      apply list_elem_of_In in Hin. specialize (Hnone d Hin Hs). lia.
  - (* none is *)
    pose proof (lookup_or_authenticate_uncached_trace X request_data c w Hfind) as Hget.
    pose proof (lookup_or_authenticate_frame X request_data c w) as Hframe.
    destruct (lookup_or_authenticate X request_data (c, w)) as [[[]|e] [c1 w1]].
    + cbn [fst snd] in Hget, Hframe. destruct Hframe as (Hobs1 & _).
      rewrite Hobs in Hobs1.
      edestruct (log_and_submit_trace X request_data c1 w1 rest Hobs1)
        as (calls & Htrace & Hgets & _ & _).
      eexists. split; [rewrite Htrace, Hget, <- app_assoc; reflexivity|]. split.
      * intros Hvalid. apply get_value_finds in Hvalid as (d & Hfind' & _).
        fold now in Hfind'. congruence.
      * intros _. eexists. split; [reflexivity | exact Hgets].
    + cbn [fst snd] in Hget |- *.
      eexists. split; [exact Hget|]. split.
      * intros Hvalid. apply get_value_finds in Hvalid as (d & Hfind' & _).
        fold now in Hfind'. congruence.
      * intros _. eexists. split; reflexivity.
Qed.

(** Witness for C1: with the token "cached" (valid until 2.0 s on a clock
    that reads 1.0 s) the call makes no GET and sends "Bearer cached"; with
    the token "stale" (expired at 0.000999 s) the first call is the GET with
    the request's credentials. *)
Lemma make_b2c_payment_request_token_policy_witness :
  (let st := (make_b2c_payment_request Scenario.all_ok Scenario.request
                (Scenario.connector,
                 Scenario.world_with_token Scenario.cached_token)).2 in
   count_gets (http_trace st.2) = 0%nat /\
   authentication_token st.1 = Some "cached") /\
  (let st := (make_b2c_payment_request Scenario.all_ok Scenario.request
                (Scenario.connector,
                 Scenario.world_with_token Scenario.expired_token)).2 in
   exists later,
     http_trace st.2
     = HttpGet "https://sandbox.safaricom.co.ke/oauth/v1/generate?grant_type=client_credentials"
         (Some "key") (Some "secret") :: later /\
     count_gets later = 0%nat).
Proof.
  split.
  - destruct (make_b2c_payment_request_token_policy Scenario.all_ok Scenario.request
                Scenario.connector (Scenario.world_with_token Scenario.cached_token) []
                eq_refl (NoDup_singleton _))
      as (calls & Htrace & Hcached & _).
    destruct Hcached as (Hgets & d & (Hin & _) & Htoken & _).
    + exists Scenario.cached_token. split; [apply list_elem_of_here|].
      split; reflexivity.
    + cbv zeta. rewrite Htrace, Htoken.
      apply list_elem_of_singleton in Hin. subst d.
      split; [exact Hgets | reflexivity].
  - destruct (make_b2c_payment_request_token_policy Scenario.all_ok Scenario.request
                Scenario.connector (Scenario.world_with_token Scenario.expired_token) []
                eq_refl (NoDup_singleton _))
      as (calls & Htrace & _ & Hnone).
    destruct Hnone as (later & Hcalls & Hgets).
    + intros d Hin _. apply list_elem_of_singleton in Hin. subst d.
      vm_compute. discriminate.
    + cbv zeta. rewrite Htrace, Hcalls. exists later. split; [reflexivity | exact Hgets].
Defined.

(** *** Observer wiring *)

Lemma submit_observers X url payload headers c w :
  _observers (submit X url payload headers (c, w)).2.1 = _observers c.
Proof. unfold_program. exec; reflexivity. Qed.

Lemma make_b2c_payment_request_observers X request_data c w :
  _observers (make_b2c_payment_request X request_data (c, w)).2.1 = _observers c.
Proof.
  unfold make_b2c_payment_request. rewrite bind_eq.
  pose proof (lookup_or_authenticate_frame X request_data c w) as (Hobs & _).
  destruct (lookup_or_authenticate X request_data (c, w)) as [[[]|e] [c1 w1]];
    cbn [fst snd] in Hobs |- *; [|exact Hobs].
  rewrite bind_eq.
  destruct (requests w1 !! OriginatorConversationID request_data) as [doc|] eqn:Hreq.
  - rewrite (create_integration_request_duplicate _ _ _ _ doc Hreq). exact Hobs.
  - rewrite (create_integration_request_fresh _ _ _ _ Hreq).
    rewrite submit_observers. exact Hobs.
Qed.

(** No public operation removes or reorders observers: the list after the
    operation is the list before it, possibly extended at the end. *)
Lemma run_op_observers X op c w :
  exists attached, _observers (run_op X op (c, w)).2.1 = (_observers c ++ attached)%list.
Proof.
  destruct op as [o| |setting|request_data]; cbn [run_op].
  - exists [o]. reflexivity.
  - exists []. rewrite notify_unfold. cbn [fst snd]. now rewrite app_nil_r.
  - exists []. rewrite bind_eq, app_nil_r.
    pose proof (authenticate_frame X setting c w) as (Hobs & _).
    now destruct (authenticate X setting (c, w)) as [[?|?] [? ?]].
  - exists []. rewrite bind_eq, app_nil_r.
    pose proof (make_b2c_payment_request_observers X request_data c w) as Hobs.
    now destruct (make_b2c_payment_request X request_data (c, w)) as [[?|?] [? ?]].
Qed.

(** C9.  Construction leaves exactly one observer, an [ErrorObserver]; in
    every state reached through public operations it is still there, at the
    head of the list; [attach] appends to the list and does nothing else;
    [notify] passes the connector's error and request name to the observers
    one after the other from the head of the list, each on the world its
    predecessors left, and stops at the first that raises. *)
Theorem error_observer_always_attached :
  (forall env app_key app_secret,
      _observers (MpesaB2CConnector env app_key app_secret) = [ErrorObserver]) /\
  (forall st, reachable st ->
      exists rest, _observers st.1 = ErrorObserver :: rest) /\
  (forall observer c w,
      attach observer (c, w)
      = (Ok tt, (set_observers (_observers c ++ [observer]) c, w))) /\
  (forall c w before observer after,
      _observers c = (before ++ observer :: after)%list ->
      notify (c, w)
      = match notify_each before (as_notifier c) w with
        | (Ok _, w1) =>
            match update observer (as_notifier c) w1 with
            | (Ok _, w2) =>
                ((notify_each after (as_notifier c) w2).1,
                 (c, (notify_each after (as_notifier c) w2).2))
            | (Raise e, w2) => (Raise e, (c, w2))
            end
        | (Raise e, w1) => (Raise e, (c, w1))
        end).
Proof.
  split; [reflexivity|]. split; [|split].
  - intros st Hreach. induction Hreach as [env k s w|X op [c w] _ [rest IH]|c w w' _ IH].
    + now exists [].
    + destruct (run_op_observers X op c w) as [attached Hobs].
      exists (rest ++ attached)%list. rewrite Hobs. cbn [fst] in IH. now rewrite IH.
    + exact IH.
  - reflexivity.
  - intros c w before observer after Hobs.
    rewrite notify_unfold, Hobs, notify_each_app.
    destruct (notify_each before (as_notifier c) w) as [[[]|e] w1]; [|reflexivity].
    cbn [notify_each]. rewrite bind_eq.
    now destruct (update observer (as_notifier c) w1) as [[[]|e] w2].
Qed.

(** ** Further properties of the code *)

(** *** utils/helpers.py *)

(** X1.  [save_access_token] builds one document from the four values it
    is given and has three outcomes: [True] once [save] and [submit] have
    both gone through, with that document stored; "Error Encountered" with
    nothing stored when [save] raises; "Error Encountered" with the
    document already stored when [save] went through and [submit] raises.
    It never returns [False]. *)
Theorem save_access_token_outcomes
    (X : Externals) (token : string) (expiry fetch : datetime)
    (setting : string) (w : World) :
  let out := save_access_token X token expiry fetch setting w in
  out.1 <> Ok false /\
  exists doc,
    associated_settings doc = setting /\ access_token doc = token /\
    expiry_time doc = expiry /\ token_fetch_time doc = fetch /\
    out = if token_doc_saved X doc
          then if token_doc_submitted X doc
               then (Ok true, set_tokens (doc :: tokens w) w)
               else (Raise (ValidationError "Error Encountered"),
                     set_tokens (doc :: tokens w) w)
          else (Raise (ValidationError "Error Encountered"), w).
Proof.
  cbv zeta. unfold_program.
  split.
  - destruct (token_doc_saved X _); [destruct (token_doc_submitted X _)|];
      discriminate.
  - eexists {| tok_name := fresh_token_name (tokens w) |}.
    cbn [associated_settings access_token expiry_time token_fetch_time].
    repeat (split; [reflexivity|]).
    destruct (token_doc_saved X _); [destruct (token_doc_submitted X _)|];
      reflexivity.
Qed.

(** X2.  Two updates of the same Integration Request in a row leave exactly
    what the second alone would leave, and give its outcome; with equal
    arguments the second changes nothing.  This holds whether or not the
    record exists. *)
Theorem update_integration_request_last_write_wins
    (integration_request : option string)
    (status1 status2 : Status) (output1 output2 : option Output)
    (error1 error2 : option string) (w : World) :
  let w1 := (update_integration_request integration_request
               status1 output1 error1 w).2 in
  update_integration_request integration_request status2 output2 error2 w1
  = update_integration_request integration_request status2 output2 error2 w.
Proof.
  cbv zeta. destruct integration_request as [name|]; [|reflexivity].
  destruct (requests w !! name) as [doc|] eqn:Hdoc.
  - rewrite (update_integration_request_found w name doc status1 output1 error1 Hdoc).
    cbn [snd].
    rewrite (update_integration_request_found w name doc status2 output2 error2 Hdoc).
    erewrite update_integration_request_found
      by (cbn [requests set_requests]; apply lookup_insert_eq).
    unfold set_requests. cbn [requests clock_reads tokens error_log http_trace].
    now rewrite insert_insert_eq.
  - now rewrite (update_integration_request_missing w name status1 output1 error1 Hdoc).
Qed.

(** X3.  [update_integration_request] never creates or removes a record and
    touches no record but the named one; tokens, error log, HTTP trace and
    clock are left alone. *)
Theorem update_integration_request_frame
    (integration_request : option string) (status : Status)
    (output : option Output) (error : option string) (w : World) :
  let w' := (update_integration_request integration_request status output error w).2 in
  dom (requests w') = dom (requests w) /\
  (forall other, integration_request <> Some other ->
                 requests w' !! other = requests w !! other) /\
  tokens w' = tokens w /\ error_log w' = error_log w /\
  http_trace w' = http_trace w /\ clock_reads w' = clock_reads w.
Proof.
  cbv zeta. destruct integration_request as [name|]; [|now repeat split].
  destruct (requests w !! name) as [doc|] eqn:Hdoc.
  - rewrite (update_integration_request_found w name doc status output error Hdoc).
    cbn [snd requests set_requests tokens error_log http_trace clock_reads].
    split; [|split; [|now repeat split]].
    + rewrite dom_insert_L.
      apply subseteq_union_1_L, singleton_subseteq_l, elem_of_dom. eauto.
    + intros other Hother. apply lookup_insert_ne. congruence.
  - rewrite (update_integration_request_missing w name status output error Hdoc).
    now repeat split.
Qed.

(** *** The callback handler, continued *)

(** X4.  The callback handler raises instead of answering when the
    envelope is missing ([KeyError]) and when a failure result names a
    request that is not in the store ([DoesNotExistError]); in both cases
    the world is as before. *)
Theorem results_callback_url_raises (w : World) (result : ResultEnvelope) :
  ResultCode result <> 0 ->
  requests w !! Result_OriginatorConversationID result = None ->
  results_callback_url (Some result) w
  = (Raise (DoesNotExistError (Some (Result_OriginatorConversationID result))), w) /\
  results_callback_url None w = (Raise (KeyError "Result"), w).
Proof.
  intros Hcode Hmissing. split; [|reflexivity].
  unfold results_callback_url, bind; cbn [subscript ret].
  apply Z.eqb_neq in Hcode. rewrite Hcode. cbn [negb].
  now apply update_integration_request_missing.
Qed.

(** Witness for X4: a failure result for "X" reaches a site that has no
    such request. *)
Lemma results_callback_url_raises_witness :
  results_callback_url (Some (Scenario.envelope 1 "Insufficient funds"))
    Scenario.empty_world
  = (Raise (DoesNotExistError (Some "X")), Scenario.empty_world) /\
  results_callback_url None Scenario.empty_world
  = (Raise (KeyError "Result"), Scenario.empty_world).
Proof.
  refine (results_callback_url_raises Scenario.empty_world
            (Scenario.envelope 1 "Insufficient funds") _ _).
  - discriminate.
  - reflexivity.
Defined.

(** X5.  Whatever it is sent, the callback handler creates no record and
    removes none, leaves every record other than the one named by
    [OriginatorConversationID] as it was, and touches neither tokens nor
    error log nor HTTP trace. *)
Theorem results_callback_url_frame
    (kwargs_Result : option ResultEnvelope) (w : World) :
  let w' := (results_callback_url kwargs_Result w).2 in
  dom (requests w') = dom (requests w) /\
  (forall other,
      (Result_OriginatorConversationID <$> kwargs_Result) <> Some other ->
      requests w' !! other = requests w !! other) /\
  tokens w' = tokens w /\ error_log w' = error_log w /\
  http_trace w' = http_trace w.
Proof.
  cbv zeta. destruct kwargs_Result as [result|]; [|now repeat split].
  unfold results_callback_url, bind; cbn [subscript ret fmap option_fmap option_map].
  destruct (negb (ResultCode result =? 0)); [|now repeat split].
  destruct (update_integration_request_frame
              (Some (Result_OriginatorConversationID result)) Failed
              (Some (OutputResult result)) (Some (ResultDesc result)) w)
    as (Hdom & Hother & Htok & Hlog & Htrace & _).
  now repeat split.
Qed.

(** X6.  Redelivery is harmless: handling the same envelope a second time
    gives the same outcome and leaves the world exactly as the first
    handling left it. *)
Theorem results_callback_url_idempotent
    (kwargs_Result : option ResultEnvelope) (w : World) :
  results_callback_url kwargs_Result (results_callback_url kwargs_Result w).2
  = results_callback_url kwargs_Result w.
Proof.
  destruct kwargs_Result as [result|]; [|reflexivity].
  unfold results_callback_url, bind; cbn [subscript ret].
  destruct (negb (ResultCode result =? 0)); [|reflexivity].
  apply update_integration_request_last_write_wins.
Qed.

(** *** The notifier, continued *)

Lemma ErrorObserver_update_missing err name w :
  truthy err = true ->
  requests w !! name = None ->
  ErrorObserver_update
    {| notifier_error := err; notifier_integration_request := Some name |} w
  = (Raise (DoesNotExistError (Some name)),
     set_error_log
       (error_log w ++ [{| log_title := "HTTPError"; log_message := py_str err |}]) w).
Proof.
  intros Herr Hdoc.
  unfold ErrorObserver_update; cbn [notifier_error notifier_integration_request].
  rewrite Herr. rewrite bind_eq. cbn [frappe_log_error modify].
  rewrite bind_eq.
  now rewrite update_integration_request_missing by exact Hdoc.
Qed.

Lemma ErrorObserver_update_raises notifier w :
  truthy (notifier_error notifier) = true ->
  exists e w', ErrorObserver_update notifier w = (Raise e, w').
Proof.
  intros Herr. destruct notifier as [err [name|]]; cbn [notifier_error] in Herr.
  - destruct (requests w !! name) as [doc|] eqn:Hdoc.
    + eexists _, _. exact (ErrorObserver_update_truthy err name doc w Herr Hdoc).
    + eexists _, _. exact (ErrorObserver_update_missing err name w Herr Hdoc).
  - eexists _, _.
    unfold ErrorObserver_update; cbn [notifier_error notifier_integration_request].
    rewrite Herr. reflexivity.
Qed.

(** X7.  When the connector's error is truthy, [notify] ends in the
    [ErrorObserver] attached at construction: it raises what that
    observer's [update] raises and leaves the world as that [update] left
    it, so observers attached later are not called. *)
Theorem notify_error_stops_at_error_observer
    (c : Connector) (w : World) (rest : list Observer) :
  _observers c = ErrorObserver :: rest ->
  truthy (error c) = true ->
  exists e w',
    ErrorObserver_update (as_notifier c) w = (Raise e, w') /\
    notify (c, w) = (Raise e, (c, w')).
Proof.
  intros Hobs Herr.
  destruct (ErrorObserver_update_raises (as_notifier c) w Herr) as (e & w' & Hupdate).
  exists e, w'. split; [exact Hupdate|].
  rewrite notify_unfold, Hobs. cbn [notify_each update]. rewrite bind_eq.
  now rewrite Hupdate.
Qed.

(** Witness for X7: an audit observer attached after construction writes
    nothing when an error is notified. *)
Lemma notify_error_stops_at_error_observer_witness :
  let c := set_observers [ErrorObserver; Scenario.audit_observer]
             (set_integration_request (Some "X") Scenario.failed_connector) in
  let w := Scenario.world_with_request Scenario.pending_doc in
  exists e w',
    notify (c, w) = (Raise e, (c, w')) /\
    error_log w' = [{| log_title := "HTTPError"; log_message := "500 Server Error" |}].
Proof.
  cbv zeta.
  destruct (notify_error_stops_at_error_observer
              (set_observers [ErrorObserver; Scenario.audit_observer]
                 (set_integration_request (Some "X") Scenario.failed_connector))
              (Scenario.world_with_request Scenario.pending_doc)
              [Scenario.audit_observer] eq_refl eq_refl)
    as (e & w' & Hupdate & Hnotify).
  exists e, w'. split; [exact Hnotify|].
  change w' with (Raise (A:=unit) e, w').2. rewrite <- Hupdate.
  vm_compute. reflexivity.
Defined.

(** X8.  When the error is truthy but the connector's integration request
    is not in the store, [notify] still writes the log entry, then raises
    [DoesNotExistError] in place of the error's own text; no record is
    touched. *)
Theorem notify_without_request_record
    (c : Connector) (w : World) (rest : list Observer) (name : string) :
  _observers c = ErrorObserver :: rest ->
  truthy (error c) = true ->
  integration_request c = Some name ->
  requests w !! name = None ->
  exists w',
    notify (c, w) = (Raise (DoesNotExistError (Some name)), (c, w')) /\
    error_log w'
    = (error_log w ++ [{| log_title := "HTTPError";
                          log_message := py_str (error c) |}])%list /\
    requests w' = requests w /\ tokens w' = tokens w.
Proof.
  intros Hobs Herr Hname Hdoc.
  eexists. split.
  - rewrite notify_unfold, Hobs. cbn [notify_each update]. rewrite bind_eq.
    unfold as_notifier. rewrite Hname.
    rewrite (ErrorObserver_update_missing (error c) name w Herr Hdoc). reflexivity.
  - now repeat split.
Qed.

(** Witness for X8: the failed connector names request "X", which the
    store does not hold. *)
Lemma notify_without_request_record_witness :
  let c := set_integration_request (Some "X") Scenario.failed_connector in
  exists w',
    notify (c, Scenario.empty_world) = (Raise (DoesNotExistError (Some "X")), (c, w')) /\
    error_log w'
    = [{| log_title := "HTTPError"; log_message := "500 Server Error" |}] /\
    requests w' = ∅ /\ tokens w' = [].
Proof.
  cbv zeta.
  refine (notify_without_request_record
            (set_integration_request (Some "X") Scenario.failed_connector)
            Scenario.empty_world [] "X" _ _ _ _).
  - reflexivity.
  - reflexivity.
  - reflexivity.
  - reflexivity.
Defined.

(** *** Authentication, continued *)

(** X9.  [authenticate] has no handler of its own: a failure of
    [requests.get], a body that is not JSON, or a body without
    [access_token] each end the call with that very exception, before the
    clock is read; the connector is unchanged and nothing is stored. *)
Theorem authenticate_fails_early
    (X : Externals) (setting : string) (c : Connector) (w : World) (e : Exn) :
  let get := requests_get X (base_url c +:+ authenticate_uri) (app_key c) (app_secret c) in
  (get = Raise e \/
   exists r, get = Ok r /\ status_code r < 400 /\
     ((json r = None /\ e = JSONDecodeError) \/
      (exists body, json r = Some body /\ json_access_token body = None /\
                    e = KeyError "access_token"))) ->
  authenticate X setting (c, w)
  = (Raise e,
     (c, called (HttpGet (base_url c +:+ authenticate_uri) (app_key c) (app_secret c)) w)).
Proof.
  cbv zeta. intros [Hget|(r & Hget & Hstatus & Hbody)]; unfold_program; rewrite Hget.
  - reflexivity.
  - apply Z.ltb_lt in Hstatus. rewrite Hstatus.
    destruct Hbody as [[Hjson ->]|(body & Hjson & Htoken & ->)]; rewrite Hjson.
    + reflexivity.
    + now rewrite Htoken.
Qed.

(** Witness for X9: the token endpoint answers 200 without [access_token]. *)
Lemma authenticate_fails_early_witness :
  let X := Scenario.outside (Ok (Scenario.token_body None (Some (Some 3600))))
             (Ok (Scenario.payment_response 200 "")) true in
  authenticate X "Main" (Scenario.connector, Scenario.empty_world)
  = (Raise (KeyError "access_token"),
     (Scenario.connector,
      called (HttpGet (base_url Scenario.connector +:+ authenticate_uri) None None)
        Scenario.empty_world)).
Proof.
  cbv zeta.
  refine (authenticate_fails_early _ "Main" Scenario.connector Scenario.empty_world
            (KeyError "access_token") _).
  right. eexists. split; [reflexivity|]. split; [reflexivity|].
  right. eexists. split; [reflexivity|]. split; reflexivity.
Defined.

(** X10.  A response that carries a token but no usable [expires_in]
    (missing, rejected by [int()], or leading past the last representable
    date) ends [authenticate] with an exception after the token has already
    been assigned to [self.authentication_token]: the connector holds the
    new token, its [expires_in] is the old one, and no document is stored. *)
Theorem authenticate_bad_expires_in
    (X : Externals) (setting : string) (c : Connector) (w : World)
    (r : Response TokenJson) (body : TokenJson) (token : string) :
  requests_get X (base_url c +:+ authenticate_uri) (app_key c) (app_secret c) = Ok r ->
  status_code r < 400 ->
  json r = Some body ->
  json_access_token body = Some token ->
  (json_expires_in body = None \/ json_expires_in body = Some None \/
   exists seconds, json_expires_in body = Some (Some seconds) /\
     ~ (0 <= now_reading X (clock_reads w) + seconds * 1000000 <= datetime_max)) ->
  exists e c' w',
    authenticate X setting (c, w) = (Raise e, (c', w')) /\
    authentication_token c' = Some token /\
    expires_in c' = expires_in c /\
    tokens w' = tokens w /\
    clock_reads w' = S (clock_reads w).
Proof.
  intros Hget Hstatus Hjson Htoken Hbad.
  apply Z.ltb_lt in Hstatus.
  destruct Hbad as [Hsecs|[Hsecs|(seconds & Hsecs & Hrange)]].
  - eexists _, _, _. split;
      [unfold_program; now rewrite Hget, Hstatus, Hjson, Htoken, Hsecs
      |now repeat split].
  - eexists _, _, _. split;
      [unfold_program; now rewrite Hget, Hstatus, Hjson, Htoken, Hsecs
      |now repeat split].
  - assert (Hout : (0 <=? now_reading X (clock_reads w) + seconds * 1000000)
                   && (now_reading X (clock_reads w) + seconds * 1000000
                       <=? datetime_max) = false).
    { apply andb_false_iff.
      destruct (Z.leb_spec 0 (now_reading X (clock_reads w) + seconds * 1000000));
        [|now left].
      right. apply Z.leb_gt. lia. }
    eexists _, _, _. split.
    + unfold_program. rewrite Hget, Hstatus, Hjson, Htoken, Hsecs.
      cbn -[Z.add Z.mul Z.leb datetime_max String.append].
      rewrite Hout. reflexivity.
    + now repeat split.
Qed.

(** Witness for X10: the token endpoint answers 200 with a token and no
    [expires_in]. *)
Lemma authenticate_bad_expires_in_witness :
  let X := Scenario.outside (Ok (Scenario.token_body (Some "abc") None))
             (Ok (Scenario.payment_response 200 "")) true in
  exists e c' w',
    authenticate X "Main" (Scenario.connector, Scenario.empty_world)
    = (Raise e, (c', w')) /\
    authentication_token c' = Some "abc" /\
    expires_in c' = None /\
    tokens w' = [] /\
    clock_reads w' = 1%nat.
Proof.
  cbv zeta.
  refine (authenticate_bad_expires_in _ "Main" Scenario.connector Scenario.empty_world
            (Scenario.token_body (Some "abc") None)
            {| json_access_token := Some "abc"; json_expires_in := None |}
            "abc" _ _ _ _ _).
  - reflexivity.
  - reflexivity.
  - reflexivity.
  - reflexivity.
  - left. reflexivity.
Defined.

(** X11.  When [save] or [submit] of the new token document raises,
    [authenticate] raises "Error Encountered"; by then the connector holds
    the new token and its expiry.  The token store is as before when it was
    [save] that raised; when [save] went through and [submit] raised, the
    new document is in the store although the call failed. *)
Theorem authenticate_store_refuses
    (X : Externals) (setting : string) (c : Connector) (w : World)
    (r : Response TokenJson) (body : TokenJson) (token : string) (seconds : Z) :
  requests_get X (base_url c +:+ authenticate_uri) (app_key c) (app_secret c) = Ok r ->
  status_code r < 400 ->
  json r = Some body ->
  json_access_token body = Some token ->
  json_expires_in body = Some (Some seconds) ->
  0 <= now_reading X (clock_reads w) + seconds * 1000000 <= datetime_max ->
  token_doc_accepted X (issued_token X setting token seconds w) = false ->
  exists c' w',
    authenticate X setting (c, w)
    = (Raise (ValidationError "Error Encountered"), (c', w')) /\
    authentication_token c' = Some token /\
    expires_in c' = Some (now_reading X (clock_reads w) + seconds * 1000000) /\
    tokens w'
    = if token_doc_saved X (issued_token X setting token seconds w)
      then issued_token X setting token seconds w :: tokens w
      else tokens w.
Proof.
  intros Hget Hstatus Hjson Htoken Hsecs [Hlo Hhi] Hsave.
  apply Z.ltb_lt in Hstatus. apply Z.leb_le in Hlo, Hhi.
  unfold token_doc_accepted in Hsave. unfold issued_token in *.
  destruct (token_doc_saved X _) eqn:Hsaved.
  - cbn [andb] in Hsave.
    eexists _, _. split.
    + unfold_program. rewrite Hget, Hstatus, Hjson, Htoken, Hsecs.
      cbn -[Z.add Z.mul Z.leb datetime_max String.append].
      rewrite Hlo, Hhi.
      cbn -[Z.add Z.mul Z.leb datetime_max String.append].
      rewrite Hsaved, Hsave. reflexivity.
    + now repeat split.
  - eexists _, _. split.
    + unfold_program. rewrite Hget, Hstatus, Hjson, Htoken, Hsecs.
      cbn -[Z.add Z.mul Z.leb datetime_max String.append].
      rewrite Hlo, Hhi.
      cbn -[Z.add Z.mul Z.leb datetime_max String.append].
      rewrite Hsaved. reflexivity.
    + now repeat split.
Qed.

(** Witness for X11: token "abc" for 3600 seconds is saved, and its
    submission fails. *)
Lemma authenticate_store_refuses_witness :
  let X := Scenario.outside_store (Ok (Scenario.token_response 200))
             (Ok (Scenario.payment_response 200 "")) true false in
  exists c' w',
    authenticate X "Main" (Scenario.connector, Scenario.empty_world)
    = (Raise (ValidationError "Error Encountered"), (c', w')) /\
    authentication_token c' = Some "abc" /\
    expires_in c' = Some (1000000 + 3600 * 1000000) /\
    tokens w' = [issued_token X "Main" "abc" 3600 Scenario.empty_world].
Proof.
  cbv zeta.
  refine (authenticate_store_refuses _ "Main" Scenario.connector Scenario.empty_world
            (Scenario.token_response 200)
            {| json_access_token := Some "abc"; json_expires_in := Some (Some 3600) |}
            "abc" 3600 _ _ _ _ _ _ _).
  - reflexivity.
  - reflexivity.
  - reflexivity.
  - reflexivity.
  - reflexivity.
  - vm_compute. split; discriminate.
  - reflexivity.
Defined.

(** X12.  Only the environment named exactly "sandbox" is routed to the
    sandbox host: a connector built for any other [env] authenticates
    against the production host, with the key and secret it was built with. *)
Theorem authenticate_endpoint_by_env
    (X : Externals) (env : string) (app_key app_secret : option string)
    (setting : string) (w : World) :
  let host := if bool_decide (env = "sandbox") then "https://sandbox.safaricom.co.ke"
              else "https://api.safaricom.co.ke" in
  http_trace (authenticate X setting (MpesaB2CConnector env app_key app_secret, w)).2.2
  = (http_trace w
       ++ [HttpGet (host +:+ "/oauth/v1/generate?grant_type=client_credentials")
             app_key app_secret])%list.
Proof.
  cbv zeta. rewrite authenticate_trace. reflexivity.
Qed.

(** *** Payment submission, continued *)

(** X13.  Without a valid cached token, a token endpoint answering 400 or
    more ends [make_b2c_payment_request] with the authentication error:
    no Integration Request is created and no POST is sent; the only HTTP
    call is the GET, and the connector's key and secret have been replaced
    by those of the request. *)
Theorem make_b2c_payment_request_auth_rejected
    (X : Externals) (request_data : B2CRequestDefinition)
    (c : Connector) (w : World) (r : Response TokenJson) :
  (forall d, d ∈ tokens w -> associated_settings d = Setting request_data ->
             expiry_time d <= now_reading X (clock_reads w)) ->
  requests_get X (base_url c +:+ authenticate_uri)
    (Some (ConsumerKey request_data)) (Some (ConsumerSecret request_data)) = Ok r ->
  400 <= status_code r ->
  exists c' w',
    make_b2c_payment_request X request_data (c, w)
    = (Raise (ValidationError
                ("Can't get token with provided Credentials for setting: <b>"
                   +:+ Setting request_data +:+ "</b>")),
       (c', w')) /\
    app_key c' = Some (ConsumerKey request_data) /\
    app_secret c' = Some (ConsumerSecret request_data) /\
    integration_request c' = integration_request c /\
    requests w' = requests w /\
    tokens w' = tokens w /\
    http_trace w'
    = (http_trace w
         ++ [HttpGet (base_url c +:+ authenticate_uri)
               (Some (ConsumerKey request_data))
               (Some (ConsumerSecret request_data))])%list.
Proof.
  intros Hnone Hget Hstatus.
  apply get_value_finds_none in Hnone. apply Z.ltb_ge in Hstatus.
  eexists _, _. split.
  - unfold_program. cbn [tokens set_clock_reads]. rewrite Hnone.
    cbn [base_url app_key app_secret set_credentials].
    now rewrite Hget, Hstatus.
  - now repeat split.
Qed.

(** Witness for X13: an expired token in the store and a token endpoint
    answering 401. *)
Lemma make_b2c_payment_request_auth_rejected_witness :
  exists c' w',
    make_b2c_payment_request Scenario.auth_401 Scenario.request
      (Scenario.connector, Scenario.world_with_token Scenario.expired_token)
    = (Raise (ValidationError
                "Can't get token with provided Credentials for setting: <b>Main</b>"),
       (c', w')) /\
    app_key c' = Some "key" /\
    app_secret c' = Some "secret" /\
    integration_request c' = None /\
    requests w' = ∅ /\
    tokens w' = [Scenario.expired_token] /\
    http_trace w'
    = [HttpGet "https://sandbox.safaricom.co.ke/oauth/v1/generate?grant_type=client_credentials"
         (Some "key") (Some "secret")].
Proof.
  refine (make_b2c_payment_request_auth_rejected Scenario.auth_401 Scenario.request
            Scenario.connector (Scenario.world_with_token Scenario.expired_token)
            (Scenario.token_response 401) _ _ _).
  - intros d Hin _. apply list_elem_of_singleton in Hin. subst d.
    vm_compute. discriminate.
  - reflexivity.
  - vm_compute. discriminate.
Defined.

Lemma submit_not_json X url payload headers c w r :
  requests_post X url payload headers = Ok r ->
  status_code r < 400 ->
  json r = None ->
  submit X url payload headers (c, w)
  = (Raise JSONDecodeError, (c, called (HttpPost url payload headers) w)).
Proof.
  intros Hpost Hstatus Hjson. unfold_program. rewrite Hpost.
  replace (400 <=? status_code r) with false by (symmetry; apply Z.leb_gt; lia).
  cbn [andb]. now rewrite Hjson.
Qed.

(** X14.  An exception of [requests.post] that is neither an [HTTPError]
    nor a [ConnectionError] (a read timeout, for one) leaves
    [make_b2c_payment_request] as it is: nothing is logged, [self.error]
    keeps its value, and the Integration Request stays as it was created. *)
Theorem make_b2c_payment_request_unhandled_error
    (X : Externals) (request_data : B2CRequestDefinition)
    (c c1 : Connector) (w w1 : World) (e : Exn) :
  requests w !! OriginatorConversationID request_data = None ->
  lookup_or_authenticate X request_data (c, w) = (Ok tt, (c1, w1)) ->
  requests_post X (saf_url_of c1) (payload_of X request_data) (headers_of c1) = Raise e ->
  is_http_or_connection_error e = false ->
  exists c' w',
    make_b2c_payment_request X request_data (c, w) = (Raise e, (c', w')) /\
    error c' = error c /\
    error_log w' = error_log w /\
    requests w' !! OriginatorConversationID request_data
    = Some (new_request (saf_url_of c1) (payload_of X request_data) (headers_of c1)).
Proof.
  intros Hfresh Hlookup Hpost He.
  pose proof (lookup_or_authenticate_frame X request_data c w) as Hframe.
  rewrite Hlookup in Hframe. cbn [fst snd] in Hframe.
  destruct Hframe as (_ & _ & Herr1 & _ & Hreq1 & Hlog1).
  eexists _, _. split.
  - unfold make_b2c_payment_request. rewrite bind_eq, Hlookup, bind_eq.
    rewrite create_integration_request_fresh by (now rewrite Hreq1).
    exact (submit_unhandled _ _ _ _ _ _ e Hpost He).
  - unfold called.
    cbn [error set_integration_request error_log requests set_requests set_http_trace].
    rewrite lookup_insert_eq. now repeat split.
Qed.

(** Witness for X14: the POST runs into a read timeout. *)
Lemma make_b2c_payment_request_unhandled_error_witness :
  let X := Scenario.outside (Ok (Scenario.token_response 200))
             (Raise (RequestException "Read timed out")) true in
  exists c' w',
    make_b2c_payment_request X Scenario.request
      (Scenario.connector, Scenario.empty_world)
    = (Raise (RequestException "Read timed out"), (c', w')) /\
    error c' = None /\
    error_log w' = [] /\
    (ir_status <$> requests w' !! "X") = Some Pending.
Proof.
  cbv zeta.
  destruct (make_b2c_payment_request_unhandled_error
              (Scenario.outside (Ok (Scenario.token_response 200))
                 (Raise (RequestException "Read timed out")) true)
              Scenario.request Scenario.connector
              (lookup_or_authenticate
                 (Scenario.outside (Ok (Scenario.token_response 200))
                    (Raise (RequestException "Read timed out")) true)
                 Scenario.request (Scenario.connector, Scenario.empty_world)).2.1
              Scenario.empty_world
              (lookup_or_authenticate
                 (Scenario.outside (Ok (Scenario.token_response 200))
                    (Raise (RequestException "Read timed out")) true)
                 Scenario.request (Scenario.connector, Scenario.empty_world)).2.2
              (RequestException "Read timed out"))
    as (c' & w' & Hcall & Herr & Hlog & Hdoc).
  - reflexivity.
  - vm_compute. reflexivity.
  - reflexivity.
  - reflexivity.
  - exists c', w'.
    change (OriginatorConversationID Scenario.request) with "X" in Hdoc.
    rewrite Hcall, Herr, Hlog, Hdoc. now repeat split.
Defined.

(** X15.  An answer with a status below 400 whose body is not JSON makes
    [make_b2c_payment_request] raise the decoding error after the POST has
    gone out: the observer is not involved, nothing is logged, and the
    Integration Request stays as it was created. *)
Theorem make_b2c_payment_request_body_not_json
    (X : Externals) (request_data : B2CRequestDefinition)
    (c c1 : Connector) (w w1 : World) (r : Response JsonObject) :
  requests w !! OriginatorConversationID request_data = None ->
  lookup_or_authenticate X request_data (c, w) = (Ok tt, (c1, w1)) ->
  requests_post X (saf_url_of c1) (payload_of X request_data) (headers_of c1) = Ok r ->
  status_code r < 400 ->
  json r = None ->
  exists c' w',
    make_b2c_payment_request X request_data (c, w) = (Raise JSONDecodeError, (c', w')) /\
    error c' = error c /\
    error_log w' = error_log w /\
    http_trace w'
    = (http_trace w1
         ++ [HttpPost (saf_url_of c1) (payload_of X request_data) (headers_of c1)])%list /\
    requests w' !! OriginatorConversationID request_data
    = Some (new_request (saf_url_of c1) (payload_of X request_data) (headers_of c1)).
Proof.
  intros Hfresh Hlookup Hpost Hstatus Hjson.
  pose proof (lookup_or_authenticate_frame X request_data c w) as Hframe.
  rewrite Hlookup in Hframe. cbn [fst snd] in Hframe.
  destruct Hframe as (_ & _ & Herr1 & _ & Hreq1 & Hlog1).
  eexists _, _. split.
  - unfold make_b2c_payment_request. rewrite bind_eq, Hlookup, bind_eq.
    rewrite create_integration_request_fresh by (now rewrite Hreq1).
    exact (submit_not_json _ _ _ _ _ _ r Hpost Hstatus Hjson).
  - unfold called.
    cbn [error set_integration_request error_log requests set_requests
         http_trace set_http_trace].
    rewrite lookup_insert_eq. now repeat split.
Qed.

(** Witness for X15: the provider answers 200 with a body that is not JSON. *)
Lemma make_b2c_payment_request_body_not_json_witness :
  let X := Scenario.outside (Ok (Scenario.token_response 200))
             (Ok {| status_code := 200; http_error_msg := ""; json := None |}) true in
  exists c' w',
    make_b2c_payment_request X Scenario.request
      (Scenario.connector, Scenario.empty_world)
    = (Raise JSONDecodeError, (c', w')) /\
    error_log w' = [] /\
    (ir_status <$> requests w' !! "X") = Some Pending.
Proof.
  cbv zeta.
  destruct (make_b2c_payment_request_body_not_json
              (Scenario.outside (Ok (Scenario.token_response 200))
                 (Ok {| status_code := 200; http_error_msg := ""; json := None |}) true)
              Scenario.request Scenario.connector
              (lookup_or_authenticate
                 (Scenario.outside (Ok (Scenario.token_response 200))
                    (Ok {| status_code := 200; http_error_msg := ""; json := None |}) true)
                 Scenario.request (Scenario.connector, Scenario.empty_world)).2.1
              Scenario.empty_world
              (lookup_or_authenticate
                 (Scenario.outside (Ok (Scenario.token_response 200))
                    (Ok {| status_code := 200; http_error_msg := ""; json := None |}) true)
                 Scenario.request (Scenario.connector, Scenario.empty_world)).2.2
              {| status_code := 200; http_error_msg := ""; json := None |})
    as (c' & w' & Hcall & _ & Hlog & _ & Hdoc).
  - reflexivity.
  - vm_compute. reflexivity.
  - reflexivity.
  - reflexivity.
  - reflexivity.
  - exists c', w'.
    change (OriginatorConversationID Scenario.request) with "X" in Hdoc.
    rewrite Hcall, Hlog, Hdoc. now repeat split.
Defined.

(** *** Token store *)

(** X16.  A token stored by [authenticate] is found again: as long as the
    clock reads earlier than its expiry, the token phase of a later payment
    for the same setting returns it as the bearer token, reads the clock
    once and changes nothing else; no HTTP call is made. *)
Theorem issued_token_is_reused
    (X X' : Externals) (request_data : B2CRequestDefinition)
    (c : Connector) (w : World)
    (r : Response TokenJson) (body : TokenJson) (token : string) (seconds : Z) :
  requests_get X (base_url c +:+ authenticate_uri) (app_key c) (app_secret c) = Ok r ->
  status_code r < 400 ->
  json r = Some body ->
  json_access_token body = Some token ->
  json_expires_in body = Some (Some seconds) ->
  0 <= now_reading X (clock_reads w) + seconds * 1000000 <= datetime_max ->
  token_doc_accepted X (issued_token X (Setting request_data) token seconds w) = true ->
  NoDup (tok_name <$> tokens w) ->
  let st := (authenticate X (Setting request_data) (c, w)).2 in
  now_reading X' (clock_reads st.2) < now_reading X (clock_reads w) + seconds * 1000000 ->
  lookup_or_authenticate X' request_data st
  = (Ok tt, (set_authentication_token (Some token) st.1,
             set_clock_reads (S (clock_reads st.2)) st.2)).
Proof.
  intros Hget Hstatus Hjson Htoken Hsecs Hrange Hsave Hnodup st Hnow.
  pose proof (authenticate_keeps_names_unique X (Setting request_data) c w Hnodup)
    as Hnodup'.
  subst st.
  rewrite (authenticate_accepted X (Setting request_data) c w r body token seconds
             Hget Hstatus Hjson Htoken Hsecs Hrange Hsave) in *.
  cbn [fst snd] in *.
  apply (lookup_or_authenticate_cached X' request_data _ _
           (issued_token X (Setting request_data) token seconds w)); [|exact Hnodup'].
  cbn [tokens set_tokens find]. unfold token_matches at 1.
  cbn [associated_settings expiry_time issued_token].
  rewrite bool_decide_eq_true_2 by reflexivity.
  apply Z.ltb_lt in Hnow. cbn [clock_reads set_tokens set_clock_reads] in Hnow |- *.
  now rewrite Hnow.
Qed.

(** Witness for X16: token "abc", issued for 3600 seconds at 1.0 s, is the
    bearer of a payment whose lookup reads the clock two microseconds
    later. *)
Lemma issued_token_is_reused_witness :
  let st := (authenticate Scenario.all_ok "Main"
               (Scenario.connector, Scenario.empty_world)).2 in
  lookup_or_authenticate Scenario.all_ok Scenario.request st
  = (Ok tt, (set_authentication_token (Some "abc") st.1,
             set_clock_reads (S (clock_reads st.2)) st.2)).
Proof.
  refine (issued_token_is_reused Scenario.all_ok Scenario.all_ok Scenario.request
            Scenario.connector Scenario.empty_world (Scenario.token_response 200)
            {| json_access_token := Some "abc"; json_expires_in := Some (Some 3600) |}
            "abc" 3600 _ _ _ _ _ _ _ _ _).
  - reflexivity.
  - reflexivity.
  - reflexivity.
  - reflexivity.
  - reflexivity.
  - vm_compute. split; discriminate.
  - reflexivity.
  - apply NoDup_nil_2.
  - vm_compute. reflexivity.
Defined.

Lemma lookup_or_authenticate_tokens X request_data c w :
  let w' := (lookup_or_authenticate X request_data (c, w)).2.2 in
  tokens w' = tokens w \/ exists doc, tokens w' = doc :: tokens w.
Proof. unfold_program. exec; eauto. Qed.

Lemma submit_tokens X url payload headers c w rest name doc :
  _observers c = ErrorObserver :: rest ->
  integration_request c = Some name ->
  requests w !! name = Some doc ->
  tokens (submit X url payload headers (c, w)).2.2 = tokens w.
Proof.
  intros Hobs Hname Hdoc.
  destruct (post_failure X url payload headers) as [e|] eqn:Hfail.
  - now rewrite (submit_failure _ _ _ _ _ _ rest name doc e Hfail Hobs Hname Hdoc).
  - unfold post_failure in Hfail. unfold_program.
    destruct (requests_post X url payload headers) as [r|e].
    + destruct ((400 <=? status_code r) && (status_code r <? 600)); [discriminate|].
      now destruct (json r).
    + now destruct (is_http_or_connection_error e).
Qed.

(** X17.  [make_b2c_payment_request] never removes or rewrites a token
    document: afterwards the store is the one before, or the one before
    with a single new document in front; expired tokens stay where they
    are. *)
Theorem make_b2c_payment_request_keeps_tokens
    (X : Externals) (request_data : B2CRequestDefinition)
    (c : Connector) (w : World) (rest : list Observer) :
  _observers c = ErrorObserver :: rest ->
  let w' := (make_b2c_payment_request X request_data (c, w)).2.2 in
  tokens w' = tokens w \/ exists doc, tokens w' = doc :: tokens w.
Proof.
  intros Hobs. cbv zeta.
  unfold make_b2c_payment_request. rewrite bind_eq.
  pose proof (lookup_or_authenticate_tokens X request_data c w) as Htokens.
  pose proof (lookup_or_authenticate_frame X request_data c w) as (Hobs1 & _).
  destruct (lookup_or_authenticate X request_data (c, w)) as [[[]|e] [c1 w1]];
    cbn [fst snd] in *; [|exact Htokens].
  rewrite bind_eq.
  destruct (requests w1 !! OriginatorConversationID request_data) as [doc|] eqn:Hreq.
  - now rewrite (create_integration_request_duplicate _ _ _ _ doc Hreq).
  - rewrite (create_integration_request_fresh _ _ _ _ Hreq).
    erewrite submit_tokens.
    + exact Htokens.
    + cbn [_observers set_integration_request]. rewrite Hobs1. exact Hobs.
    + reflexivity.
    + cbn [requests set_requests]. apply lookup_insert_eq.
Qed.

(** Witness for X17: a payment made while the store holds an expired token. *)
Lemma make_b2c_payment_request_keeps_tokens_witness :
  let w' := (make_b2c_payment_request Scenario.all_ok Scenario.request
               (Scenario.connector,
                Scenario.world_with_token Scenario.expired_token)).2.2 in
  tokens w' = [Scenario.expired_token] \/
  exists doc, tokens w' = [doc; Scenario.expired_token].
Proof.
  exact (make_b2c_payment_request_keeps_tokens Scenario.all_ok Scenario.request
           Scenario.connector (Scenario.world_with_token Scenario.expired_token)
           [] eq_refl).
Defined.

(** *** The error attribute *)

(** X18.  [self.error] is never reset.  On a connector that still holds the
    error of an earlier failure, a payment that succeeds returns the
    provider's answer and leaves that error in place; a [notify] after it
    reports the old error against the new request, marks it Failed and
    raises. *)
Theorem stale_error_fails_next_request
    (X : Externals) (request_data : B2CRequestDefinition)
    (c c1 : Connector) (w w1 : World) (rest : list Observer)
    (r : Response JsonObject) (body : JsonObject) :
  _observers c = ErrorObserver :: rest ->
  truthy (error c) = true ->
  requests w !! OriginatorConversationID request_data = None ->
  lookup_or_authenticate X request_data (c, w) = (Ok tt, (c1, w1)) ->
  requests_post X (saf_url_of c1) (payload_of X request_data) (headers_of c1) = Ok r ->
  status_code r < 400 ->
  json r = Some body ->
  exists c' w' w'' doc,
    make_b2c_payment_request X request_data (c, w) = (Ok body, (c', w')) /\
    error c' = error c /\
    notify (c', w') = (Raise (DataError (py_str (error c))), (c', w'')) /\
    requests w'' !! OriginatorConversationID request_data = Some doc /\
    ir_status doc = Failed /\
    ir_error doc = Some (py_str (error c)).
Proof.
  intros Hobs Herr Hfresh Hlookup Hpost Hstatus Hjson.
  pose proof (lookup_or_authenticate_frame X request_data c w) as Hframe.
  rewrite Hlookup in Hframe. cbn [fst snd] in Hframe.
  destruct Hframe as (Hobs1 & _ & Herr1 & _ & Hreq1 & _).
  eexists _, _, _, _. split; [|split; [|split]].
  - unfold make_b2c_payment_request. rewrite bind_eq, Hlookup, bind_eq.
    rewrite create_integration_request_fresh by (now rewrite Hreq1).
    exact (submit_success _ _ _ _ _ _ r body Hpost Hstatus Hjson).
  - cbn [error set_integration_request]. exact Herr1.
  - rewrite notify_unfold. cbn [_observers set_integration_request].
    rewrite Hobs1, Hobs. unfold as_notifier.
    cbn [error integration_request set_integration_request]. rewrite Herr1.
    rewrite (notify_each_truthy rest (error c)
               (OriginatorConversationID request_data)
               (new_request (saf_url_of c1) (payload_of X request_data) (headers_of c1)));
      [reflexivity | exact Herr |].
    unfold called. cbn [requests set_requests set_http_trace]. apply lookup_insert_eq.
  - unfold reported. cbn [fst snd requests set_requests]. rewrite lookup_insert_eq.
    now repeat split.
Qed.

(** Witness for X18: the connector that failed with HTTP 500 is used
    again, and this time the provider answers 200. *)
Lemma stale_error_fails_next_request_witness :
  exists c' w' w'' doc,
    make_b2c_payment_request Scenario.all_ok Scenario.request
      (Scenario.failed_connector, Scenario.empty_world)
    = (Ok [("ConversationID", "X")], (c', w')) /\
    error c' = Some (ErrException (HTTPError "500 Server Error")) /\
    notify (c', w') = (Raise (DataError "500 Server Error"), (c', w'')) /\
    requests w'' !! "X" = Some doc /\
    ir_status doc = Failed /\
    ir_error doc = Some "500 Server Error".
Proof.
  refine (stale_error_fails_next_request Scenario.all_ok Scenario.request
            Scenario.failed_connector
            (lookup_or_authenticate Scenario.all_ok Scenario.request
               (Scenario.failed_connector, Scenario.empty_world)).2.1
            Scenario.empty_world
            (lookup_or_authenticate Scenario.all_ok Scenario.request
               (Scenario.failed_connector, Scenario.empty_world)).2.2
            [] (Scenario.payment_response 200 "") Scenario.ack _ _ _ _ _ _ _).
  - reflexivity.
  - reflexivity.
  - reflexivity.
  - vm_compute. reflexivity.
  - reflexivity.
  - reflexivity.
  - reflexivity.
Defined.

(** *** scripts/setup/uninstall.py *)

(** X19.  Whatever goes wrong inside the [try] of [delete_custom_fields]
    (no fixture at all, a fixture without ["doctype"] or ["filters"], or a
    delete that the database refuses), the failure notice naming
    [app_email] is written after the opening line and the same exception is
    raised again; no document has been removed. *)
Theorem delete_custom_fields_reraises
    (fixtures : list Uninstall.Fixture) (app_email : string)
    (selects : Uninstall.Filters -> string -> bool)
    (delete_error : string -> Uninstall.Filters -> option Uninstall.Exc)
    (s : Uninstall.Site) (e : Uninstall.Exc) :
  (fixtures = [] /\ e = Uninstall.IndexError) \/
  (exists fixture others,
      fixtures = fixture :: others /\
      ((Uninstall.fixture_doctype fixture = None /\ e = Uninstall.MissingKey "doctype") \/
       (exists doctype,
           Uninstall.fixture_doctype fixture = Some doctype /\
           ((Uninstall.fixture_filters fixture = None /\
             e = Uninstall.MissingKey "filters") \/
            (exists filters,
                Uninstall.fixture_filters fixture = Some filters /\
                delete_error doctype filters = Some e))))) ->
  Uninstall.delete_custom_fields fixtures app_email selects delete_error s
  = (Some e,
     {| Uninstall.documents := Uninstall.documents s;
        Uninstall.console :=
          (Uninstall.console s
             ++ [{| Uninstall.echo_message := Uninstall.Text "Removing customisations";
                    Uninstall.echo_fg := "green" |};
                 {| Uninstall.echo_message :=
                      Uninstall.Tuple
                        ["Removal of customisations failed due to an error.";
                         "Please try again.";
                         "If error persists, please report to following email: "
                           +:+ app_email];
                    Uninstall.echo_fg := "bright_red" |}])%list |}).
Proof.
  unfold Uninstall.delete_custom_fields, Uninstall.frappe_db_delete,
    Uninstall.click_secho, Uninstall.failure_message.
  intros [[-> ->]|(fixture & others & -> & Hcause)].
  - cbn. now rewrite <- app_assoc.
  - destruct Hcause as [[Hdoctype ->]|(doctype & Hdoctype & Hcause)]; rewrite Hdoctype.
    + cbn. now rewrite <- app_assoc.
    + destruct Hcause as [[Hfilters ->]|(filters & Hfilters & Hdelete)]; rewrite Hfilters.
      * cbn. now rewrite <- app_assoc.
      * rewrite Hdelete. cbn. now rewrite <- app_assoc.
Qed.

(** Witness for X19: [hooks.fixtures] is empty. *)
Lemma delete_custom_fields_reraises_witness :
  Uninstall.delete_custom_fields [] "support@example.com" (fun _ _ => true)
    (fun _ _ => None)
    {| Uninstall.documents := [("Custom Field", "Employee-mpesa")];
       Uninstall.console := [] |}
  = (Some Uninstall.IndexError,
     {| Uninstall.documents := [("Custom Field", "Employee-mpesa")];
        Uninstall.console :=
          [{| Uninstall.echo_message := Uninstall.Text "Removing customisations";
              Uninstall.echo_fg := "green" |};
           {| Uninstall.echo_message :=
                Uninstall.Tuple
                  ["Removal of customisations failed due to an error.";
                   "Please try again.";
                   "If error persists, please report to following email: support@example.com"];
              Uninstall.echo_fg := "bright_red" |}] |}).
Proof.
  refine (delete_custom_fields_reraises [] "support@example.com" (fun _ _ => true)
            (fun _ _ => None) _ Uninstall.IndexError _).
  left. split; reflexivity.
Defined.

(** X20.  [delete_custom_fields] acts on the first fixture only.  When the
    delete goes through, the documents left are exactly those that are not
    of that fixture's doctype or not selected by its filters; the fixtures
    after the first play no part, and one line is written to the console. *)
Theorem delete_custom_fields_first_fixture_only
    (fixture : Uninstall.Fixture) (others : list Uninstall.Fixture)
    (app_email : string)
    (selects : Uninstall.Filters -> string -> bool)
    (delete_error : string -> Uninstall.Filters -> option Uninstall.Exc)
    (s : Uninstall.Site) (doctype : string) (filters : Uninstall.Filters) :
  Uninstall.fixture_doctype fixture = Some doctype ->
  Uninstall.fixture_filters fixture = Some filters ->
  delete_error doctype filters = None ->
  exists s',
    Uninstall.delete_custom_fields (fixture :: others) app_email selects delete_error s
    = (None, s') /\
    Uninstall.delete_custom_fields [fixture] app_email selects delete_error s
    = (None, s') /\
    (forall d, In d (Uninstall.documents s') <->
               In d (Uninstall.documents s) /\
               ~ (d.1 = doctype /\ selects filters d.2 = true)) /\
    Uninstall.console s'
    = (Uninstall.console s
         ++ [{| Uninstall.echo_message := Uninstall.Text "Removing customisations";
                Uninstall.echo_fg := "green" |}])%list.
Proof.
  intros Hdoctype Hfilters Hdelete.
  eexists. split; [|split; [|split]].
  - unfold Uninstall.delete_custom_fields, Uninstall.frappe_db_delete.
    rewrite Hdoctype, Hfilters, Hdelete. reflexivity.
  - unfold Uninstall.delete_custom_fields, Uninstall.frappe_db_delete.
    rewrite Hdoctype, Hfilters, Hdelete. reflexivity.
  - intros d. cbn [Uninstall.documents Uninstall.click_secho].
    rewrite List.filter_In. split; intros [Hin Hkeep]; (split; [exact Hin|]).
    + intros [Hd Hsel]. apply negb_true_iff, andb_false_iff in Hkeep.
      destruct Hkeep as [Hne|Hns]; [|congruence].
      apply String.eqb_neq in Hne. contradiction.
    + apply negb_true_iff, andb_false_iff.
      destruct (String.eqb_spec d.1 doctype) as [Hd|Hd]; [|now left].
      right. destruct (selects filters d.2); [|reflexivity].
      exfalso. apply Hkeep. now split.
  - reflexivity.
Qed.

(** Witness for X20: two fixtures, of which the first selects one of two
    custom fields. *)
Lemma delete_custom_fields_first_fixture_only_witness :
  let first := {| Uninstall.fixture_doctype := Some "Custom Field";
                  Uninstall.fixture_filters :=
                    Some [("name", "in", ["Employee-mpesa"])] |} in
  let second := {| Uninstall.fixture_doctype := Some "Property Setter";
                   Uninstall.fixture_filters := Some [] |} in
  let selects := fun (_ : Uninstall.Filters) name => String.eqb name "Employee-mpesa" in
  let s := {| Uninstall.documents :=
                [("Custom Field", "Employee-mpesa"); ("Custom Field", "Employee-other");
                 ("Property Setter", "Employee-mpesa")];
              Uninstall.console := [] |} in
  exists s',
    Uninstall.delete_custom_fields [first; second] "support@example.com" selects
      (fun _ _ => None) s = (None, s') /\
    Uninstall.documents s'
    = [("Custom Field", "Employee-other"); ("Property Setter", "Employee-mpesa")].
Proof.
  cbv zeta.
  destruct (delete_custom_fields_first_fixture_only
              {| Uninstall.fixture_doctype := Some "Custom Field";
                 Uninstall.fixture_filters := Some [("name", "in", ["Employee-mpesa"])] |}
              [{| Uninstall.fixture_doctype := Some "Property Setter";
                  Uninstall.fixture_filters := Some [] |}]
              "support@example.com"
              (fun (_ : Uninstall.Filters) name => String.eqb name "Employee-mpesa")
              (fun _ _ => None)
              {| Uninstall.documents :=
                   [("Custom Field", "Employee-mpesa"); ("Custom Field", "Employee-other");
                    ("Property Setter", "Employee-mpesa")];
                 Uninstall.console := [] |}
              "Custom Field" [("name", "in", ["Employee-mpesa"])]
              eq_refl eq_refl eq_refl)
    as (s' & Hcall & _).
  exists s'. split; [exact Hcall|].
  change s' with (@None Uninstall.Exc, s').2. rewrite <- Hcall.
  vm_compute. reflexivity.
Defined.
